(** * Sentinel-2 viewer: the band extraction, normalisation and export pipeline

    A shallow embedding of [streamlit_app.py].  The script is a thin layer
    over [planetary_computer], [rasterio] and [numpy]; the calls into those
    libraries are the variables of [Section Pipeline], the library routines
    whose result the script's own logic depends on ([Window.from_slices],
    [np.stack], [np.clip], trailing-axis indexing, the raster writer) are
    written out, and the script's functions are translated over them.

    Python exceptions are the [Err] results of an error monad; coordinates
    are rationals; pixel values of the integer rasters are in [Z]. *)

From Stdlib Require Import ZArith QArith Qround Qminmax Qabs Lia Lqa String.
From stdpp Require Import base list strings gmap.

Local Open Scope Z_scope.

(** ** Exceptions and the error monad *)

Inductive exn : Type :=
| KeyError (key : string)        (* a dict lookup on an absent key *)
| IndexError                     (* an index outside an axis *)
| ValueError                     (* numpy's and rasterio's argument checks *)
| WindowError                    (* rasterio.errors.WindowError *)
| ExternalError (msg : string).  (* raised inside sign / open / read *)

Inductive result (A : Type) : Type :=
| Ok (a : A)
| Err (e : exn).
Arguments Ok {A} a.
Arguments Err {A} e.

Definition bind {A B : Type} (m : result A) (f : A -> result B) : result B :=
  match m with
  | Ok a => f a
  | Err e => Err e
  end.

Notation "'let*' x ':=' m 'in' k" := (bind m (fun x => k))
  (at level 10, x pattern, m at level 100, k at level 200).

Definition is_ok {A : Type} (m : result A) : bool :=
  match m with Ok _ => true | Err _ => false end.

(** [for x in xs: ys.append(f(x))]: left to right, the first exception
    ends the loop. *)
Fixpoint for_each {A B : Type} (f : A -> result B) (xs : list A)
  : result (list B) :=
  match xs with
  | [] => Ok []
  | x :: xs' =>
      let* y := f x in
      let* ys := for_each f xs' in
      Ok (y :: ys)
  end.

(** ** numpy arrays

    An array is its dtype, its shape and its elements in row-major (C)
    order, so the trailing axis varies fastest. *)

Inductive dtype : Type :=
| uint8 | int8 | uint16 | int16 | uint32 | int32 | float32 | float64.

Record ndarray (A : Type) : Type := mk_ndarray {
  arr_dtype : dtype;
  shape : list nat;
  data : list A
}.
Arguments mk_ndarray {A} _ _ _.
Arguments arr_dtype {A} _.
Arguments shape {A} _.
Arguments data {A} _.

Definition size_of (s : list nat) : nat := foldr Nat.mul 1%nat s.

(** The invariant numpy keeps for every array it hands out. *)
Definition well_formed {A : Type} (a : ndarray A) : Prop :=
  length (data a) = size_of (shape a).

(** [m] consecutive groups of [n] elements. *)
Fixpoint chunks {A : Type} (n m : nat) (l : list A) : list (list A) :=
  match m with
  | O => []
  | S m' => take n l :: chunks n m' (drop n l)
  end.

(** [a.shape[-1]] *)
Definition last_dim {A : Type} (a : ndarray A) : result nat :=
  match last (shape a) with
  | Some n => Ok n
  | None => Err IndexError
  end.

(** The shape without its trailing axis. *)
Definition leading (s : list nat) : list nat := take (length s - 1) s.

(** [a[..., k]] for [0 <= k]: drops the trailing axis. *)
Definition select_last {A : Type} (k : nat) (a : ndarray A)
  : result (ndarray A) :=
  let* n := last_dim a in
  if (k <? n)%nat then
    Ok (mk_ndarray (arr_dtype a) (leading (shape a))
          (flat_map (fun c => take 1 (drop k c))
             (chunks n (size_of (leading (shape a))) (data a))))
  else Err IndexError.

(** [a[..., :k]]: slicing clamps to the axis and cannot fail on an array
    that has an axis at all. *)
Definition slice_last {A : Type} (k : nat) (a : ndarray A)
  : result (ndarray A) :=
  let* n := last_dim a in
  Ok (mk_ndarray (arr_dtype a) (leading (shape a) ++ [Nat.min k n])
        (flat_map (take k)
           (chunks n (size_of (leading (shape a))) (data a)))).

(** For [p = 0 .. m-1], element [p] of every list in turn. *)
Fixpoint columns {A : Type} (m : nat) (ls : list (list A))
  : list (list A) :=
  match m with
  | O => []
  | S m' => flat_map (take 1) ls :: columns m' (map (drop 1) ls)
  end.

(** The row-major elements of arrays stacked along a new trailing axis. *)
Definition interleave {A : Type} (m : nat) (ls : list (list A)) : list A :=
  concat (columns m ls).

Definition shape_eqb (s t : list nat) : bool := bool_decide (s = t).

(** [np.stack(arrs, axis=-1)]: at least one array, all of one shape; the
    result has a new trailing axis of length [len(arrs)] and the dtype
    numpy's promotion gives. *)
Definition np_stack {A : Type} (promote : dtype -> dtype -> dtype)
    (arrs : list (ndarray A)) : result (ndarray A) :=
  match arrs with
  | [] => Err ValueError
  | a :: rest =>
      if forallb (fun b => shape_eqb (shape b) (shape a)) rest then
        Ok (mk_ndarray
              (foldl promote (arr_dtype a) (map arr_dtype rest))
              (shape a ++ [length arrs])
              (interleave (size_of (shape a)) (map data arrs)))
      else Err ValueError
  end.

(** ** Geometry: bounding boxes, affine transforms, windows *)

(** [bbox = [left, bottom, right, top]], degrees. *)
Record BBox : Type := mk_bbox {
  left : Q; bottom : Q; right : Q; top : Q
}.

(** The six coefficients of [affine.Affine]:
    [x = a*col + b*row + c], [y = d*col + e*row + f]. *)
Record Affine : Type := mk_affine {
  af_a : Q; af_b : Q; af_c : Q; af_d : Q; af_e : Q; af_f : Q
}.

Record Window : Type := mk_window {
  col_off : Z; row_off : Z; width : Z; height : Z
}.

(** [Window.from_slices(rows, cols)] with both stops given and the defaults
    [height=-1, width=-1, boundless=False]: a negative index needs the
    dataset size, which the call does not supply, and is refused; the
    extent of an inverted slice is clamped to 0. *)
Definition from_slices (rows cols : Z * Z) : result Window :=
  let '(r_off, r_stop) := rows in
  let '(c_off, c_stop) := cols in
  if (r_off <? 0) || (r_stop <? 0) then Err WindowError
  else if (c_off <? 0) || (c_stop <? 0) then Err WindowError
  else Ok (mk_window c_off r_off
             (Z.max (c_stop - c_off) 0) (Z.max (r_stop - r_off) 0)).

(** ** The raster writer

    A dataset opened in mode ["w"]: its profile and one plane per band,
    zero-filled until written.  Closing it leaves the file; the GTiff
    container keeps profile and planes as they are. *)
Record GeoTIFF : Type := mk_geotiff {
  g_driver : string;
  g_height : nat;
  g_width : nat;
  g_count : nat;
  g_dtype : dtype;
  g_crs : string;
  g_transform : Affine;
  g_planes : list (list Z)
}.

(** [rasterio.open(path, "w", driver=, height=, width=, count=, dtype=,
    crs=, transform=)]; GDAL refuses a raster without rows, columns or
    bands. *)
Definition open_w (driver : string) (h w count : nat) (dt : dtype)
    (crs : string) (t : Affine) : result GeoTIFF :=
  if (h =? 0)%nat || (w =? 0)%nat || (count =? 0)%nat
  then Err (ExternalError "illegal raster size")
  else Ok (mk_geotiff driver h w count dt crs t
             (replicate count (replicate (h * w) 0))).

(** [dst.write(arr, indexes)]: a 2-D array of the dataset's size into the
    band of 1-based index [indexes]. *)
Definition dst_write (dst : GeoTIFF) (arr : ndarray Z) (indexes : nat)
  : result GeoTIFF :=
  if negb ((1 <=? indexes)%nat && (indexes <=? g_count dst)%nat)
  then Err IndexError
  else if negb (shape_eqb (shape arr) [g_height dst; g_width dst])
  then Err ValueError
  else Ok (mk_geotiff (g_driver dst) (g_height dst) (g_width dst)
             (g_count dst) (g_dtype dst) (g_crs dst) (g_transform dst)
             (<[(indexes - 1)%nat := data arr]> (g_planes dst))).

(** Re-opening the file: all bands, moved to image layout (rows, columns,
    bands) as [rasterio.plot.reshape_as_image] does, and the transform. *)
Definition reopen (f : GeoTIFF) : ndarray Z * Affine :=
  (mk_ndarray (g_dtype f) [g_height f; g_width f; g_count f]
     (interleave (g_height f * g_width f) (g_planes f)),
   g_transform f).

(** ** The catalog item *)

Record Asset : Type := mk_asset { href : string }.

(** A STAC item as the script uses it: [item.assets] is a dict from band
    name to asset. *)
Record Item : Type := mk_item { assets : gmap string Asset }.

(** [d[key]] *)
Definition getitem {V : Type} (d : gmap string V) (key : string) : result V :=
  match d !! key with
  | Some v => Ok v
  | None => Err (KeyError key)
  end.

(** ** The script *)

Section Pipeline.

(** An opened raster dataset. *)
Variable source : Type.

(** [planetary_computer.sign], [rasterio.open], [src.index],
    [src.transform], [bsrc.read(indexes, window=, out_shape=)] and
    numpy's dtype promotion. *)
Variable sign : string -> result string.
Variable rasterio_open : string -> result source.
Variable index : source -> Q -> Q -> Z * Z.
Variable src_transform : source -> Affine.
Variable read : source -> nat -> Window -> nat * nat -> result (ndarray Z).
Variable promote : dtype -> dtype -> dtype.

(** float32 rounding, used by [astype(np.float32)] and by the float32
    division. *)
Variable round32 : Q -> Q.

(** The scene selected in the selectbox; a global of the script. *)
Variable item : Item.

(** float64 rounding, used by the arithmetic of line 23. *)
Variable round64 : Q -> Q.

(** [bbox = [lon-buffer, lat-buffer, lon+buffer, lat+buffer]], each
    difference and sum rounded to a float. *)
Definition bbox_of (lat lon buffer : Q) : BBox :=
  mk_bbox (round64 (lon - buffer)) (round64 (lat - buffer))
          (round64 (lon + buffer)) (round64 (lat + buffer)).

(** Lines 61-64 of [read_band]: the two corners to pixel indices, ordered
    by min and max into the window. *)
Definition pixel_window (src : source) (bbox : BBox) : result Window :=
  let '(row_start, col_start) := index src (left bbox) (top bbox) in
  let '(row_stop, col_stop) := index src (right bbox) (bottom bbox) in
  from_slices (Z.min row_start row_stop, Z.max row_start row_stop)
              (Z.min col_start col_stop, Z.max col_start col_stop).

(** The body of the loop over [bands]. *)
Definition read_one (window : Window) (band : string)
  : result (ndarray Z) :=
  let* asset := getitem (assets item) band in
  let* asset_band_href := sign (href asset) in
  let* bsrc := rasterio_open asset_band_href in
  read bsrc 1%nat window (256%nat, 256%nat).

Definition read_band (asset_href : string) (bbox : BBox)
    (bands : list string) : result (ndarray Z * Affine) :=
  let* signed_href := sign asset_href in
  let* src := rasterio_open signed_href in
  let* window := pixel_window src bbox in
  let* arrs := for_each (read_one window) bands in
  let* arrs := np_stack promote arrs in
  Ok (arrs, src_transform src).

(** [np.clip(x, lo, hi)] is [minimum(maximum(x, lo), hi)]. *)
Definition np_clip (x lo hi : Q) : Q := Qmin (Qmax x lo) hi.

Definition normalize_px (v : Z) : Q :=
  let x := round32 (inject_Z v) in
  round32 (np_clip x 0 3000 / 3000)%Q.

Definition normalize (arr : ndarray Z) : ndarray Q :=
  mk_ndarray float32 (shape arr) (map normalize_px (data arr)).

(** Line 84. *)
Definition img_rgb (preview : ndarray Z) : result (ndarray Q) :=
  let* n := last_dim preview in
  if (3 <=? n)%nat then
    let* a := slice_last 3 preview in Ok (normalize a)
  else
    let* a := select_last 0 preview in Ok (normalize a).

(** [preview.shape[i]] *)
Definition shape_at (a : ndarray Z) (i : nat) : result nat :=
  match shape a !! i with
  | Some n => Ok n
  | None => Err IndexError
  end.

(** [for i in range(k, count): dst.write(preview[..., i], i+1)] *)
Fixpoint write_planes (preview : ndarray Z) (dst : GeoTIFF)
    (k todo : nat) : result GeoTIFF :=
  match todo with
  | O => Ok dst
  | S todo' =>
      let* plane := select_last k preview in
      let* dst' := dst_write dst plane (k + 1) in
      write_planes preview dst' (S k) todo'
  end.

(** The download handler, lines 96-108. *)
Definition export_geotiff (preview : ndarray Z) (transform : Affine)
  : result GeoTIFF :=
  let* h := shape_at preview 0 in
  let* w := shape_at preview 1 in
  let* count := shape_at preview 2 in
  let* dst := open_w "GTiff" h w count (arr_dtype preview)
                "EPSG:4326" transform in
  write_planes preview dst 0 count.

(** One run of the script from the preview on: the reference asset is
    the item's ["B04"]; the export runs when the button was pressed. *)
Definition script (bbox : BBox) (bands : list string) (button : bool)
  : result (ndarray Q * option GeoTIFF) :=
  let* b04 := getitem (assets item) "B04" in
  let* (preview, transform) := read_band (href b04) bbox bands in
  let* img := img_rgb preview in
  if button then
    let* tif := export_geotiff preview transform in
    Ok (img, Some tif)
  else Ok (img, None).

End Pipeline.

Arguments pixel_window {source} index src bbox.
Arguments read_one {source} sign rasterio_open read item window band.
Arguments read_band {source} sign rasterio_open index src_transform read
  promote item asset_href bbox bands.
Arguments script {source} sign rasterio_open index src_transform read
  promote round32 item bbox bands button.

#[global] Instance dtype_eq_dec : EqDecision dtype.
Proof. solve_decision. Defined.

(** ** A concrete world

    North-up rasters in geographic coordinates whose pixels all hold one
    value, enough to run the script on. *)
Module Demo.

Record dataset : Type := mk_dataset {
  ds_transform : Affine;
  ds_height : Z;
  ds_width : Z;
  ds_dtype : dtype;
  ds_value : Z
}.

(** [src.index(x, y)] of a north-up raster: the inverse transform,
    floored, as (row, col). *)
Definition index (d : dataset) (x y : Q) : Z * Z :=
  let t := ds_transform d in
  (Qfloor ((y - af_f t) / af_e t), Qfloor ((x - af_c t) / af_a t)).

Definition sign (h : string) : result string := Ok (h +:+ "?sig").

(** Pixels of 0.001 degree and of 0.1 degree, origin at (0 E, 90 N);
    the rasters reach 10 degrees east and 50 degrees south of it. *)
Definition fine : Affine := mk_affine (1 # 1000) 0 0 0 (- 1 # 1000) 90.
Definition coarse : Affine := mk_affine (1 # 10) 0 0 0 (- 1 # 10) 90.
Definition fine_raster (value : Z) : dataset :=
  mk_dataset fine 50000 10000 uint16 value.
Definition coarse_raster (value : Z) : dataset :=
  mk_dataset coarse 500 100 uint16 value.

Definition files : gmap string dataset :=
  list_to_map
    [ ("fine/B04.tif?sig", fine_raster 4);
      ("fine/B03.tif?sig", fine_raster 3);
      ("fine/B02.tif?sig", fine_raster 2);
      ("fine/B08.tif?sig", fine_raster 8);
      ("coarse/B04.tif?sig", coarse_raster 4);
      ("coarse/B03.tif?sig", coarse_raster 3);
      ("coarse/B02.tif?sig", coarse_raster 2) ]%string.

Definition rasterio_open (h : string) : result dataset :=
  match files !! h with
  | Some d => Ok d
  | None => Err (ExternalError "No such file or directory")
  end.

(** A read resampled to [out_shape].  A window that starts beyond the
    raster or reaches beyond it is refused (GDAL: access window out of
    range); inside, these rasters are constant, so the result is. *)
Definition read (d : dataset) (indexes : nat) (w : Window)
    (out_shape : nat * nat) : result (ndarray Z) :=
  if (ds_height d <=? row_off w) || (ds_width d <=? col_off w)
     || (ds_height d <? row_off w + height w)
     || (ds_width d <? col_off w + width w)
  then Err (ExternalError "Read or write failed")
  else Ok (mk_ndarray (ds_dtype d) [out_shape.1; out_shape.2]
             (replicate (out_shape.1 * out_shape.2) (ds_value d))).

Definition promote (a b : dtype) : dtype :=
  if decide (a = b) then a else float64.

Definition item_fine : Item :=
  mk_item (list_to_map
    [ ("B04", mk_asset "fine/B04.tif"); ("B03", mk_asset "fine/B03.tif");
      ("B02", mk_asset "fine/B02.tif"); ("B08", mk_asset "fine/B08.tif")
    ]%string).

Definition item_coarse : Item :=
  mk_item (list_to_map
    [ ("B04", mk_asset "coarse/B04.tif");
      ("B03", mk_asset "coarse/B03.tif");
      ("B02", mk_asset "coarse/B02.tif") ]%string).

(** The box of the script's default inputs (latitude 48.8584, longitude
    2.2945, buffer 0.02): [2.2745, 48.8384, 2.3145, 48.8784]. *)
Definition bbox : BBox :=
  mk_bbox (22745 # 10000) (488384 # 10000) (23145 # 10000) (488784 # 10000).

Definition fine_b04 : dataset := fine_raster 4.
Definition fine_b08 : dataset := fine_raster 8.
Definition coarse_b04 : dataset := coarse_raster 4.

(** Exact arithmetic in place of float32. *)
Definition round32 (q : Q) : Q := q.

(** A 2 x 2 array of two bands, and some pixel values around the
    clipping range. *)
Definition tile : ndarray Z :=
  mk_ndarray uint16 [2; 2; 2]%nat [11; 21; 12; 22; 13; 23; 14; 24].
Definition samples : ndarray Z :=
  mk_ndarray int16 [5]%nat [-5; 0; 1500; 3000; 10000].

Definition read_band_fine :=
  read_band sign rasterio_open index ds_transform read promote item_fine.
Definition read_band_coarse :=
  read_band sign rasterio_open index ds_transform read promote item_coarse.

End Demo.

(** ** The rectangle on the map *)

(** Line 90: the two corners handed to [folium.Rectangle], each as
    (latitude, longitude). *)
Definition rectangle_of (round64 : Q -> Q) (lat lon buffer : Q)
  : (Q * Q) * (Q * Q) :=
  ((round64 (lat - buffer)%Q, round64 (lon - buffer)%Q),
   (round64 (lat + buffer)%Q, round64 (lon + buffer)%Q)).

(** ** Coverage

    The box misses a raster of [rows] x [cols] pixels: both corners fall
    before its first row, or both at or after its last, or the same for
    the columns.  [start] and [stop] are the (row, col) indices of the
    corners. *)
Definition outside_coverage (rows cols : Z) (start stop : Z * Z) : Prop :=
  (start.1 < 0 /\ stop.1 < 0) \/ (rows <= start.1 /\ rows <= stop.1) \/
  (start.2 < 0 /\ stop.2 < 0) \/ (cols <= start.2 /\ cols <= stop.2).

(** ** The download handler and the file system

    Lines 96-108 once more, with the steps that can fail outside the
    script: creating the temporary file, creating the raster in it and
    writing a band. *)
Section Handler.

(** The path [tempfile.NamedTemporaryFile(suffix=".tif", delete=False)]
    gives, whether [rasterio.open(path, "w", ...)] can create the file,
    and whether band [i] can be written to it. *)
Variable tmp_name : result string.
Variable can_create : string -> result unit.
Variable can_write : string -> nat -> result unit.

Fixpoint write_planes_io (path : string) (preview : ndarray Z)
    (dst : GeoTIFF) (k todo : nat) : result GeoTIFF :=
  match todo with
  | O => Ok dst
  | S todo' =>
      let* plane := select_last k preview in
      let* _ := can_write path (k + 1)%nat in
      let* dst' := dst_write dst plane (k + 1) in
      write_planes_io path preview dst' (S k) todo'
  end.

Definition download_handler (preview : ndarray Z) (transform : Affine)
  : result GeoTIFF :=
  let* path := tmp_name in
  let* h := shape_at preview 0 in
  let* w := shape_at preview 1 in
  let* count := shape_at preview 2 in
  let* _ := can_create path in
  let* dst := open_w "GTiff" h w count (arr_dtype preview)
                "EPSG:4326" transform in
  write_planes_io path preview dst 0 count.

End Handler.

(** ** The calls [read_band] makes

    The same function once more, now with the log of its calls into
    [planetary_computer] and [rasterio]: a [with rasterio.open(...)] block
    closes its dataset on the way out, by return or by exception. *)

Inductive event : Type :=
| EvSign (h : string)                  (* planetary_computer.sign(h) *)
| EvOpen (h : string) (opened : bool)  (* rasterio.open(h), and whether it opened *)
| EvRead (h : string) (window : Window)(* read on the dataset opened at h *)
| EvClose (h : string).                (* leaving the with block of h *)

Definition traced (A : Type) : Type := list event * result A.

Definition tret {A : Type} (a : A) : traced A := ([], Ok a).

Definition tbind {A B : Type} (m : traced A) (f : A -> traced B)
  : traced B :=
  match m with
  | (log, Ok a) => let '(log', r) := f a in (log ++ log', r)
  | (log, Err e) => (log, Err e)
  end.

(** A step that calls nothing outside. *)
Definition lift {A : Type} (m : result A) : traced A := ([], m).

Notation "'let+' x ':=' m 'in' k" := (tbind m (fun x => k))
  (at level 10, x pattern, m at level 100, k at level 200).

Fixpoint tfor_each {A B : Type} (f : A -> traced B) (xs : list A)
  : traced (list B) :=
  match xs with
  | [] => tret []
  | x :: xs' =>
      let+ y := f x in
      let+ ys := tfor_each f xs' in
      tret (y :: ys)
  end.

(** The datasets open after the log, innermost first, starting from
    [st]; [None] when a close does not match the innermost open one. *)
Fixpoint handles (log : list event) (st : list string)
  : option (list string) :=
  match log with
  | [] => Some st
  | EvOpen h true :: log' => handles log' (h :: st)
  | EvClose h :: log' =>
      match st with
      | h' :: st' => if decide (h = h') then handles log' st' else None
      | [] => None
      end
  | _ :: log' => handles log' st
  end.

(** The largest number of datasets open at once during the log, starting
    with [d] open. *)
Fixpoint peak (log : list event) (d : nat) : nat :=
  match log with
  | [] => d
  | EvOpen _ true :: log' => Nat.max d (peak log' (S d))
  | EvClose _ :: log' => Nat.max d (peak log' (pred d))
  | _ :: log' => peak log' d
  end.

(** A log that leaves the open datasets as it found them and never has
    more than [k] further ones open. *)
Definition scoped (k : nat) (log : list event) : Prop :=
  forall st rest d,
    handles (log ++ rest) st = handles rest st /\
    (peak (log ++ rest) d <= Nat.max (d + k) (peak rest d))%nat.

(** The hrefs signed, the hrefs [rasterio.open] was called on, and the
    reads, each in the order of the calls. *)
Definition signs (log : list event) : list string :=
  flat_map (fun ev => match ev with EvSign h => [h] | _ => [] end) log.
Definition opens (log : list event) : list string :=
  flat_map (fun ev => match ev with EvOpen h _ => [h] | _ => [] end) log.
Definition reads (log : list event) : list (string * Window) :=
  flat_map (fun ev => match ev with EvRead h w => [(h, w)] | _ => [] end)
    log.

(** The calls one turn of the loop makes for a band: its asset href
    signed, the signed href opened, read through the window and closed. *)
Definition band_calls (w : Window) (c : string * string) : list event :=
  [EvSign c.1; EvOpen c.2 true; EvRead c.2 w; EvClose c.2].

Section Traced.

Variable source : Type.
Variable sign : string -> result string.
Variable rasterio_open : string -> result source.
Variable index : source -> Q -> Q -> Z * Z.
Variable src_transform : source -> Affine.
Variable read : source -> nat -> Window -> nat * nat -> result (ndarray Z).
Variable promote : dtype -> dtype -> dtype.
Variable item : Item.

Definition traced_sign (h : string) : traced string := ([EvSign h], sign h).

(** [with rasterio.open(h) as src: body] *)
Definition with_open {A : Type} (h : string) (body : source -> traced A)
  : traced A :=
  match rasterio_open h with
  | Ok src =>
      let '(log, r) := body src in
      (EvOpen h true :: log ++ [EvClose h], r)
  | Err e => ([EvOpen h false], Err e)
  end.

Definition read_one_traced (window : Window) (band : string)
  : traced (ndarray Z) :=
  let+ asset := lift (getitem (assets item) band) in
  let+ asset_band_href := traced_sign (href asset) in
  with_open asset_band_href (fun bsrc =>
    ([EvRead asset_band_href window],
     read bsrc 1%nat window (256%nat, 256%nat))).

Definition read_band_traced (asset_href : string) (bbox : BBox)
    (bands : list string) : traced (ndarray Z * Affine) :=
  let+ signed_href := traced_sign asset_href in
  with_open signed_href (fun src =>
    let+ window := lift (pixel_window index src bbox) in
    let+ arrs := tfor_each (read_one_traced window) bands in
    let+ arrs := lift (np_stack promote arrs) in
    tret (arrs, src_transform src)).

End Traced.

Arguments with_open {source} rasterio_open {A} h body.
Arguments read_one_traced {source} sign rasterio_open read item window band.
Arguments read_band_traced {source} sign rasterio_open index src_transform
  read promote item asset_href bbox bands.

(** The concrete world once more: the logged [read_band], the default
    box mirrored to 2.2945 degrees west, left of the rasters,
    and the same box 10 degrees further east, right of them. *)
Definition demo_traced_fine :=
  read_band_traced Demo.sign Demo.rasterio_open Demo.index
    Demo.ds_transform Demo.read Demo.promote Demo.item_fine.
Definition demo_traced_coarse :=
  read_band_traced Demo.sign Demo.rasterio_open Demo.index
    Demo.ds_transform Demo.read Demo.promote Demo.item_coarse.
Definition demo_bbox_west : BBox :=
  mk_bbox (- 23145 # 10000) (488384 # 10000) (- 22745 # 10000)
          (488784 # 10000).
Definition demo_bbox_east : BBox :=
  mk_bbox (122745 # 10000) (488384 # 10000) (123145 # 10000)
          (488784 # 10000).

(** The default inputs through line 23, in exact arithmetic. *)
Definition demo_bbox_exact : BBox :=
  bbox_of (fun q => q) (488584 # 10000) (22945 # 10000) (2 # 100).

(** An item with the near-infrared band alone, and a file system that
    lets everything through. *)
Definition demo_item_nir : Item :=
  mk_item {[ "B08"%string := mk_asset "fine/B08.tif" ]}.
Definition demo_download :=
  download_handler (Ok "/tmp/tmpk3v9.tif"%string)
    (fun _ => Ok tt) (fun _ _ => Ok tt).

(** ** Lists: groups and columns *)

Section Groups.

Context {A : Type}.
Implicit Types (l c : list A) (ls cs : list (list A)).

Lemma chunks_length n m l : length (chunks n m l) = m.
Proof. revert l; induction m; intros; simpl; auto. Qed.

Lemma chunks_concat n cs :
  Forall (fun c => length c = n) cs ->
  chunks n (length cs) (concat cs) = cs.
Proof.
  induction 1 as [|c cs Hc _ IH]; simpl; [reflexivity|].
  subst n. rewrite take_app_length, drop_app_length, IH. reflexivity.
Qed.

Lemma concat_chunks n m l :
  length l = (m * n)%nat -> concat (chunks n m l) = l.
Proof.
  revert l; induction m as [|m IH]; intros l Hl; simpl in *.
  - destruct l; [reflexivity | discriminate].
  - rewrite IH; [apply take_drop|]. rewrite length_drop. lia.
Qed.

Lemma chunks_Forall n m l :
  length l = (m * n)%nat -> Forall (fun c => length c = n) (chunks n m l).
Proof.
  revert l; induction m as [|m IH]; intros l Hl; simpl in *; constructor.
  - rewrite length_take. lia.
  - apply IH. rewrite length_drop. lia.
Qed.

Lemma columns_length m ls : length (columns m ls) = m.
Proof. revert ls; induction m; intros; simpl; auto. Qed.

Lemma heads_length ls :
  Forall (fun l => (0 < length l)%nat) ls ->
  length (flat_map (take 1) ls) = length ls.
Proof.
  induction 1 as [|l ls Hl _ IH]; simpl; [reflexivity|].
  rewrite length_app, length_take, IH. lia.
Qed.

Lemma columns_Forall m ls :
  Forall (fun l => length l = m) ls ->
  Forall (fun c => length c = length ls) (columns m ls).
Proof.
  revert ls; induction m as [|m IH]; intros ls Hls; simpl; constructor.
  - apply heads_length. eapply Forall_impl; [exact Hls|].
    simpl. intros; lia.
  - rewrite <- (length_map (drop 1) ls). apply IH.
    apply Forall_map. eapply Forall_impl; [exact Hls|].
    simpl. intros l Hl. rewrite length_drop. lia.
Qed.

(** The group of the first elements, read at position [k], is the first
    element of list [k]. *)
Lemma heads_at k ls l :
  Forall (fun l => (0 < length l)%nat) ls ->
  ls !! k = Some l ->
  take 1 (drop k (flat_map (take 1) ls)) = take 1 l.
Proof.
  intros Hls; revert k; induction Hls as [|l0 ls Hl0 Hls IH];
    intros k Hk; [discriminate|].
  destruct l0 as [|x l0]; [simpl in Hl0; lia|].
  destruct k as [|k]; simpl in *.
  - injection Hk as <-. reflexivity.
  - apply IH, Hk.
Qed.

Lemma select_columns m k ls l :
  Forall (fun l => length l = m) ls ->
  ls !! k = Some l ->
  flat_map (fun c => take 1 (drop k c)) (columns m ls) = l.
Proof.
  revert ls l; induction m as [|m IH]; intros ls l Hls Hk; simpl.
  - symmetry. apply nil_length_inv.
    exact (proj1 (Forall_lookup _ _) Hls k l Hk).
  - rewrite (heads_at k ls l); [|
      eapply Forall_impl; [exact Hls | simpl; intros; lia] | exact Hk].
    rewrite (IH (map (drop 1) ls) (drop 1 l)).
    + apply take_drop.
    + apply Forall_map. eapply Forall_impl; [exact Hls|].
      simpl. intros l' Hl'. rewrite length_drop. lia.
    + rewrite list_lookup_fmap, Hk. reflexivity.
Qed.

Lemma chunks_interleave m ls :
  Forall (fun l => length l = m) ls ->
  chunks (length ls) m (interleave m ls) = columns m ls.
Proof.
  intros Hls.
  pose proof (chunks_concat _ _ (columns_Forall m ls Hls)) as E.
  rewrite columns_length in E. exact E.
Qed.

Lemma take1_drop_length k c :
  (k < length c)%nat -> length (take 1 (drop k c)) = 1%nat.
Proof. intros Hk. rewrite length_take, length_drop. lia. Qed.

(** Reading a group position by position gives the group back. *)
Lemma singletons_from pre c :
  flat_map (fun k => take 1 (drop k (pre ++ c)))
    (seq (length pre) (length c)) = c.
Proof.
  revert pre; induction c as [|x c IH]; intros pre; simpl;
    [reflexivity|].
  rewrite drop_app_length. simpl. f_equal.
  specialize (IH (pre ++ [x])).
  rewrite <- app_assoc, length_app in IH. simpl in IH.
  rewrite Nat.add_1_r in IH. exact IH.
Qed.

Lemma singletons c :
  flat_map (fun k => take 1 (drop k c)) (seq 0 (length c)) = c.
Proof. exact (singletons_from [] c). Qed.

Lemma columns_select n cs :
  Forall (fun c => length c = n) cs ->
  columns (length cs)
    (map (fun k => flat_map (fun c => take 1 (drop k c)) cs) (seq 0 n))
  = cs.
Proof.
  induction 1 as [|c cs Hc Hcs IH]; simpl; [reflexivity|].
  f_equal.
  - etransitivity; [|apply (singletons c)]. rewrite Hc.
    rewrite !flat_map_concat_map, map_map. f_equal.
    apply map_ext_in. intros k Hk. apply in_seq in Hk.
    apply take_app_length'. symmetry. apply take1_drop_length. lia.
  - etransitivity; [|apply IH]. f_equal.
    rewrite map_map. apply map_ext_in. intros k Hk. apply in_seq in Hk.
    apply drop_app_length'. symmetry. apply take1_drop_length. lia.
Qed.

(** Position [k] of the first [j] elements of each group, [k < j]. *)
Lemma select_slice n j k cs :
  (k < j)%nat ->
  Forall (fun c => length c = n) cs ->
  flat_map (fun c => take 1 (drop k c))
    (chunks (Nat.min j n) (length cs) (flat_map (take j) cs))
  = flat_map (fun c => take 1 (drop k c)) cs.
Proof.
  intros Hk Hcs.
  rewrite (flat_map_concat_map (take j)).
  rewrite <- (length_map (take j) cs), chunks_concat.
  - rewrite !flat_map_concat_map, map_map. f_equal.
    apply map_ext. intros c.
    rewrite take_drop_commute, take_take.
    replace (Nat.min (k + 1) j) with (k + 1)%nat by lia.
    rewrite <- take_drop_commute. reflexivity.
  - apply Forall_map. eapply Forall_impl; [exact Hcs|].
    simpl. intros c Hc. rewrite length_take. lia.
Qed.

Lemma interleave_length m ls :
  Forall (fun l => length l = m) ls ->
  length (interleave m ls) = (m * length ls)%nat.
Proof.
  unfold interleave.
  revert ls; induction m as [|m IH]; intros ls Hls; simpl;
    [reflexivity|].
  rewrite length_app, heads_length, IH, length_map; [lia | |].
  - apply Forall_map. eapply Forall_impl; [exact Hls|].
    simpl. intros l Hl. rewrite length_drop. lia.
  - eapply Forall_impl; [exact Hls|]. simpl. intros; lia.
Qed.

End Groups.

(** ** Arrays: stacking and trailing-axis indexing *)

Section Arrays.

Context {A : Type}.
Variable promote : dtype -> dtype -> dtype.
Implicit Types (a p : ndarray A) (arrs : list (ndarray A)).

Lemma ndarray_eta a : a = mk_ndarray (arr_dtype a) (shape a) (data a).
Proof. destruct a; reflexivity. Qed.

Lemma shape_eqb_eq s t : shape_eqb s t = true <-> s = t.
Proof. unfold shape_eqb. apply bool_decide_eq_true. Qed.

Lemma last_dim_snoc a s n : shape a = s ++ [n] -> last_dim a = Ok n.
Proof. intros H. unfold last_dim. rewrite H, last_snoc. reflexivity. Qed.

Lemma leading_snoc s n : leading (s ++ [n]) = s.
Proof.
  unfold leading. rewrite length_app. simpl.
  replace (length s + 1 - 1)%nat with (length s) by lia.
  apply take_app_length.
Qed.

(** What a successful [np.stack] returns. *)
Lemma np_stack_Ok arrs p :
  np_stack promote arrs = Ok p ->
  exists a rest,
    arrs = a :: rest /\
    Forall (fun b => shape b = shape a) arrs /\
    shape p = shape a ++ [length arrs] /\
    data p = interleave (size_of (shape a)) (map data arrs).
Proof.
  destruct arrs as [|a rest]; simpl; [discriminate|].
  destruct (forallb _ rest) eqn:Hall; [|discriminate].
  intros [= <-]. exists a, rest. repeat split.
  constructor; [reflexivity|].
  apply Forall_forall. intros b Hb.
  rewrite forallb_forall in Hall.
  apply shape_eqb_eq, Hall. apply list_elem_of_In, Hb.
Qed.

Lemma np_stack_nonempty arrs :
  arrs <> [] ->
  (forall a b, a ∈ arrs -> b ∈ arrs -> shape a = shape b) ->
  is_ok (np_stack promote arrs) = true.
Proof.
  destruct arrs as [|a rest]; [congruence|]. intros _ Hs. simpl.
  replace (forallb _ rest) with true; [reflexivity|].
  symmetry. apply forallb_forall. intros b Hb.
  apply shape_eqb_eq, Hs; [right | left].
  apply list_elem_of_In, Hb.
Qed.

(** [np.stack(arrs, axis=-1)[..., k]] holds the elements of [arrs[k]]. *)
Lemma select_stack arrs p k a :
  np_stack promote arrs = Ok p ->
  Forall well_formed arrs ->
  arrs !! k = Some a ->
  exists plane,
    select_last k p = Ok plane /\
    shape plane = shape a /\ data plane = data a.
Proof.
  intros Hp Hwf Hk.
  destruct (np_stack_Ok _ _ Hp) as (a0 & rest & Harrs & Hsh & Hps & Hpd).
  assert (Hka : shape a = shape a0)
    by exact (proj1 (Forall_lookup _ _) Hsh k a Hk).
  assert (Hlen : Forall (fun l => length l = size_of (shape a0))
                   (map data arrs)).
  { apply Forall_map. apply Forall_forall. intros b Hb. simpl.
    rewrite <- (proj1 (Forall_forall _ _) Hsh b Hb).
    exact (proj1 (Forall_forall _ _) Hwf b Hb). }
  unfold select_last. rewrite (last_dim_snoc _ _ _ Hps). simpl.
  assert (Hlt : (k <? length arrs)%nat = true).
  { apply Nat.ltb_lt. eapply lookup_lt_Some, Hk. }
  rewrite Hlt. eexists; split; [reflexivity|]. simpl.
  rewrite Hps, leading_snoc. split; [congruence|].
  rewrite Hpd, <- (length_map data arrs), (chunks_interleave _ _ Hlen).
  apply select_columns; [exact Hlen|].
  rewrite list_lookup_fmap, Hk. reflexivity.
Qed.

End Arrays.

Section ArraysZ.

Lemma size_of_snoc s n : size_of (s ++ [n]) = (size_of s * n)%nat.
Proof.
  unfold size_of. induction s as [|x s IH]; simpl; [lia|].
  rewrite IH. lia.
Qed.

(** Stacking the trailing-axis planes of an array gives its elements
    back. *)
Lemma stack_planes {A : Type} (a : ndarray A) s n :
  shape a = s ++ [n] ->
  well_formed a ->
  interleave (size_of s)
    (map (fun k => flat_map (fun c => take 1 (drop k c))
                     (chunks n (size_of s) (data a))) (seq 0 n))
  = data a.
Proof.
  intros Hs Hwf. unfold well_formed in Hwf.
  rewrite Hs, size_of_snoc in Hwf.
  unfold interleave.
  rewrite <- (chunks_length n (size_of s) (data a)) at 1.
  rewrite columns_select by (apply chunks_Forall, Hwf).
  apply concat_chunks, Hwf.
Qed.

End ArraysZ.

(** ** The loop *)

Section Loop.

Context {A B : Type} (f : A -> result B).

Lemma for_each_lookup xs ys k x :
  for_each f xs = Ok ys -> xs !! k = Some x ->
  exists y, ys !! k = Some y /\ f x = Ok y.
Proof.
  revert ys k; induction xs as [|x0 xs IH]; intros ys k H Hk;
    [discriminate|].
  simpl in H. destruct (f x0) as [y0|] eqn:E0; [|discriminate].
  simpl in H. destruct (for_each f xs) as [ys'|]; [|discriminate].
  injection H as <-. destruct k as [|k]; simpl in *.
  - injection Hk as <-. eauto.
  - eapply IH; eauto.
Qed.

Lemma for_each_length xs ys :
  for_each f xs = Ok ys -> length ys = length xs.
Proof.
  revert ys; induction xs as [|x0 xs IH]; intros ys H; simpl in H.
  - injection H as <-. reflexivity.
  - destruct (f x0); [|discriminate]. simpl in H.
    destruct (for_each f xs); [|discriminate].
    injection H as <-. simpl. f_equal. auto.
Qed.

Lemma for_each_Forall2 xs ys :
  for_each f xs = Ok ys -> Forall2 (fun x y => f x = Ok y) xs ys.
Proof.
  revert ys; induction xs as [|x0 xs IH]; intros ys H; simpl in H.
  - injection H as <-. constructor.
  - destruct (f x0) eqn:E0; [|discriminate]. simpl in H.
    destruct (for_each f xs); [|discriminate].
    injection H as <-. constructor; auto.
Qed.

Lemma for_each_total xs :
  Forall (fun x => is_ok (f x) = true) xs ->
  exists ys, for_each f xs = Ok ys.
Proof.
  induction 1 as [|x xs Hx _ [ys IH]]; simpl; [eauto|].
  destruct (f x); [|discriminate]. simpl. rewrite IH. simpl. eauto.
Qed.

(** The loop ends at the first element that raises. *)
Lemma for_each_first_Err pre x post e :
  Forall (fun x => is_ok (f x) = true) pre ->
  f x = Err e ->
  for_each f (pre ++ x :: post) = Err e.
Proof.
  induction 1 as [|x0 pre Hx0 _ IH]; intros Hx; simpl.
  - rewrite Hx. reflexivity.
  - destruct (f x0); [|discriminate]. simpl. rewrite (IH Hx).
    reflexivity.
Qed.

Lemma for_each_ext (g : A -> result B) xs :
  (forall x, f x = g x) -> for_each f xs = for_each g xs.
Proof.
  intros H. induction xs as [|x xs IH]; simpl; [reflexivity|].
  rewrite H, IH. reflexivity.
Qed.

Lemma for_each_elem_Err xs x e :
  x ∈ xs -> f x = Err e -> exists e', for_each f xs = Err e'.
Proof.
  induction 1 as [x xs|x x0 xs _ IH]; intros Hx; simpl.
  - rewrite Hx. simpl. eauto.
  - destruct (f x0); simpl; [|eauto].
    destruct (IH Hx) as [e' ->]. simpl. eauto.
Qed.

End Loop.

Lemma is_ok_result {A : Type} (m : result A) :
  is_ok m = true -> exists a, m = Ok a.
Proof. destruct m; [eauto | discriminate]. Qed.

(** ** The extraction *)

Section Extraction.

Variable source : Type.
Variable sign : string -> result string.
Variable rasterio_open : string -> result source.
Variable index : source -> Q -> Q -> Z * Z.
Variable src_transform : source -> Affine.
Variable read : source -> nat -> Window -> nat * nat -> result (ndarray Z).
Variable promote : dtype -> dtype -> dtype.
Variable round32 : Q -> Q.
Variable item : Item.

(** What rasterio promises of [read(..., out_shape=)]: an array of
    that shape. *)
Hypothesis read_shape : forall s i w sh a,
  read s i w sh = Ok a -> shape a = [sh.1; sh.2].
Hypothesis read_well_formed : forall s i w sh a,
  read s i w sh = Ok a -> well_formed a.

(** Rounding to float32 keeps the order and is exact on the numbers
    the script names. *)
Hypothesis round32_monotone : forall x y : Q,
  (x <= y)%Q -> (round32 x <= round32 y)%Q.
Hypothesis round32_0 : (round32 0 == 0)%Q.
Hypothesis round32_1 : (round32 1 == 1)%Q.
Hypothesis round32_3000 : (round32 3000 == 3000)%Q.

(** Inside this section the script's functions are read over the
    section's world. *)
Abbreviation pixel_window := (pixel_window index).
Abbreviation normalize := (normalize round32).
Abbreviation normalize_px := (normalize_px round32).
Abbreviation img_rgb := (img_rgb round32).
Abbreviation script :=
  (script sign rasterio_open index src_transform read promote round32
     item).
Abbreviation read_one := (read_one sign rasterio_open read item).
Abbreviation read_band :=
  (read_band sign rasterio_open index src_transform read promote item).

Lemma from_slices_Ok rows cols w :
  from_slices rows cols = Ok w ->
  0 <= rows.1 /\ 0 <= rows.2 /\ 0 <= cols.1 /\ 0 <= cols.2 /\
  row_off w = rows.1 /\ col_off w = cols.1 /\
  height w = Z.max (rows.2 - rows.1) 0 /\
  width w = Z.max (cols.2 - cols.1) 0.
Proof.
  destruct rows as [r0 r1], cols as [c0 c1]. unfold from_slices. simpl.
  destruct (r0 <? 0) eqn:E1; [discriminate|].
  destruct (r1 <? 0) eqn:E2; [discriminate|].
  destruct (c0 <? 0) eqn:E3; [discriminate|].
  destruct (c1 <? 0) eqn:E4; [discriminate|].
  simpl. intros [= <-]. simpl.
  apply Z.ltb_ge in E1, E2, E3, E4. repeat split; assumption.
Qed.

(** Taking [read_band] apart: every step of a successful call. *)
Lemma read_band_Ok asset_href bbox bands preview t :
  read_band asset_href bbox bands = Ok (preview, t) ->
  exists signed src w arrs,
    sign asset_href = Ok signed /\
    rasterio_open signed = Ok src /\
    pixel_window src bbox = Ok w /\
    for_each (read_one w) bands = Ok arrs /\
    np_stack promote arrs = Ok preview /\
    t = src_transform src.
Proof.
  unfold read_band. intros H.
  destruct (sign asset_href) as [signed|] eqn:Hs; [|discriminate].
  simpl in H.
  destruct (rasterio_open signed) as [src|] eqn:Ho; [|discriminate].
  simpl in H.
  destruct (pixel_window src bbox) as [w|] eqn:Hw;
    [|discriminate].
  simpl in H.
  destruct (for_each _ bands) as [arrs|] eqn:Ha; [|discriminate].
  simpl in H.
  destruct (np_stack promote arrs) as [p|] eqn:Hp; [|discriminate].
  simpl in H. injection H as <- <-.
  exists signed, src, w, arrs. repeat split; auto.
Qed.

(** Once the reference is open and the window formed, the rest of
    [read_band] is the loop over the item's assets and the stack. *)
Lemma read_band_from_window asset_href bbox bands signed src w :
  sign asset_href = Ok signed ->
  rasterio_open signed = Ok src ->
  pixel_window src bbox = Ok w ->
  read_band asset_href bbox bands =
    (let* arrs := for_each (read_one w) bands in
     let* stacked := np_stack promote arrs in
     Ok (stacked, src_transform src)).
Proof.
  intros Hs Ho Hw. unfold read_band.
  rewrite Hs. simpl. rewrite Ho. simpl. rewrite Hw. reflexivity.
Qed.

Lemma is_ok_true {A : Type} (m : result A) :
  is_ok m = true -> exists a, m = Ok a.
Proof. destruct m; [eauto | discriminate]. Qed.

(** A band array always has the shape asked for. *)
Lemma read_one_shape w band a :
  read_one w band = Ok a -> shape a = [256%nat; 256%nat].
Proof.
  unfold read_one. intros H.
  destruct (getitem _ band); [|discriminate]. simpl in H.
  destruct (sign _); [|discriminate]. simpl in H.
  destruct (rasterio_open _); [|discriminate]. simpl in H.
  exact (read_shape _ _ _ _ _ H).
Qed.

Lemma read_one_well_formed w band a :
  read_one w band = Ok a -> well_formed a.
Proof.
  unfold read_one. intros H.
  destruct (getitem _ band); [|discriminate]. simpl in H.
  destruct (sign _); [|discriminate]. simpl in H.
  destruct (rasterio_open _); [|discriminate]. simpl in H.
  exact (read_well_formed _ _ _ _ _ H).
Qed.

(** C1.  The window of [read_band] runs from the min to the max of the two
    row indices and of the two column indices that [src.index] gives for
    the corners (x1, y1) and (x2, y2), so naming the two corners in the
    other order gives the same window (the same refusal, when an index is
    negative), and the same result of [read_band]. *)
Theorem pixel_window_corner_order (src : source) (x1 y1 x2 y2 : Q)
    (asset_href : string) (bands : list string) :
  let a := index src x1 y1 in
  let b := index src x2 y2 in
  (forall w, pixel_window src (mk_bbox x1 y2 x2 y1) = Ok w ->
     row_off w = Z.min a.1 b.1 /\
     row_off w + height w = Z.max a.1 b.1 /\
     col_off w = Z.min a.2 b.2 /\
     col_off w + width w = Z.max a.2 b.2) /\
  pixel_window src (mk_bbox x1 y2 x2 y1)
    = pixel_window src (mk_bbox x2 y1 x1 y2) /\
  read_band asset_href (mk_bbox x1 y2 x2 y1) bands
    = read_band asset_href (mk_bbox x2 y1 x1 y2) bands.
Proof.
  assert (Hw : forall s, pixel_window s (mk_bbox x1 y2 x2 y1)
                       = pixel_window s (mk_bbox x2 y1 x1 y2)).
  { intros s. unfold pixel_window. cbn [left bottom right top].
    destruct (index s x1 y1) as [ra ca], (index s x2 y2) as [rb cb].
    rewrite (Z.min_comm ra rb), (Z.max_comm ra rb),
            (Z.min_comm ca cb), (Z.max_comm ca cb).
    reflexivity. }
  cbv zeta. split; [|split; [apply Hw|]].
  - intros w H. unfold pixel_window in H.
    cbn [left bottom right top] in H.
    destruct (index src x1 y1) as [ra ca], (index src x2 y2) as [rb cb].
    apply from_slices_Ok in H. cbn [fst snd] in *.
    destruct H as (_ & _ & _ & _ & -> & -> & -> & ->). lia.
  - unfold read_band.
    destruct (sign asset_href) as [signed|]; [|reflexivity]. simpl.
    destruct (rasterio_open signed) as [src'|]; [|reflexivity]. simpl.
    rewrite (Hw src'). reflexivity.
Qed.

(** C2, as the code has it.  Whenever the window is formed, its width
    and height are the distances between the two column indices and
    between the two row indices: never negative, and positive exactly
    when the two corners fall in different columns, respectively rows.
    It is formed exactly when none of the four indices is negative. *)
Theorem pixel_window_extent (src : source) (bbox : BBox) :
  let start := index src (left bbox) (top bbox) in
  let stop := index src (right bbox) (bottom bbox) in
  (forall w, pixel_window src bbox = Ok w ->
     width w = Z.abs (stop.2 - start.2) /\
     height w = Z.abs (stop.1 - start.1) /\
     0 <= width w /\ 0 <= height w /\
     (0 < width w <-> start.2 <> stop.2) /\
     (0 < height w <-> start.1 <> stop.1)) /\
  (is_ok (pixel_window src bbox) = true <->
     0 <= start.1 /\ 0 <= start.2 /\ 0 <= stop.1 /\ 0 <= stop.2).
Proof.
  unfold pixel_window.
  destruct (index src (left bbox) (top bbox)) as [rs cs].
  destruct (index src (right bbox) (bottom bbox)) as [rp cp].
  cbv zeta. cbn [fst snd]. split.
  - intros w Hw. apply from_slices_Ok in Hw. cbn [fst snd] in Hw.
    destruct Hw as (_ & _ & _ & _ & _ & _ & -> & ->). lia.
  - unfold from_slices.
    destruct (Z.min rs rp <? 0) eqn:E1; simpl.
    { apply Z.ltb_lt in E1. split; [discriminate | lia]. }
    destruct (Z.max rs rp <? 0) eqn:E2; simpl.
    { apply Z.ltb_lt in E2. split; [discriminate | lia]. }
    destruct (Z.min cs cp <? 0) eqn:E3; simpl.
    { apply Z.ltb_lt in E3. split; [discriminate | lia]. }
    destruct (Z.max cs cp <? 0) eqn:E4; simpl.
    { apply Z.ltb_lt in E4. split; [discriminate | lia]. }
    apply Z.ltb_ge in E1, E2, E3, E4. split; [lia | reflexivity].
Qed.

Lemma read_one_Ok w band arr :
  read_one w band = Ok arr ->
  exists asset signed bsrc,
    assets item !! band = Some asset /\
    sign (href asset) = Ok signed /\
    rasterio_open signed = Ok bsrc /\
    read bsrc 1%nat w (256%nat, 256%nat) = Ok arr.
Proof.
  unfold read_one, getitem. intros H.
  destruct (assets item !! band) as [asset|]; [|discriminate].
  simpl in H.
  destruct (sign (href asset)) as [signed|] eqn:Hs; [|discriminate].
  simpl in H.
  destruct (rasterio_open signed) as [bsrc|] eqn:Ho; [|discriminate].
  simpl in H. exists asset, signed, bsrc. auto.
Qed.

Lemma read_one_missing w band :
  assets item !! band = None -> read_one w band = Err (KeyError band).
Proof. intros H. unfold read_one, getitem. rewrite H. reflexivity. Qed.

(** The bands read through one window stack into 256 x 256 x n. *)
Lemma stack_of_reads w bands arrs :
  bands <> [] ->
  for_each (read_one w) bands = Ok arrs ->
  exists preview,
    np_stack promote arrs = Ok preview /\
    shape preview = [256; 256; length bands]%nat.
Proof.
  intros Hne Harrs.
  pose proof (for_each_Forall2 _ _ _ Harrs) as HF.
  assert (Hsh : forall a, a ∈ arrs -> shape a = [256; 256]%nat).
  { intros a Ha. apply list_elem_of_lookup in Ha as [i Hi].
    destruct (Forall2_lookup_r _ _ _ _ _ HF Hi) as (b & _ & Hb).
    apply (read_one_shape _ _ _ Hb). }
  assert (Hlen := for_each_length _ _ _ Harrs).
  destruct (is_ok_true (np_stack promote arrs)) as [p Hp].
  { apply np_stack_nonempty.
    - intros ->. destruct bands; [congruence | discriminate].
    - intros a b Ha Hb. rewrite (Hsh a Ha), (Hsh b Hb). reflexivity. }
  exists p. split; [exact Hp|].
  destruct (np_stack_Ok _ _ _ Hp) as (a0 & rest & -> & _ & -> & _).
  rewrite (Hsh a0) by left. rewrite Hlen. reflexivity.
Qed.

(** C5.  Band [k] of the array [read_band] returns holds the pixels read,
    through the window, from the asset that the item lists under the
    [k]-th name of [bands]; the trailing axis is as long as [bands]. *)
Theorem read_band_band_order (asset_href : string) (bbox : BBox)
    (bands : list string) (k : nat) (band : string) :
  is_ok (read_band asset_href bbox bands) = true ->
  bands !! k = Some band ->
  exists preview t signed src w asset signed_band bsrc arr plane,
    read_band asset_href bbox bands = Ok (preview, t) /\
    sign asset_href = Ok signed /\
    rasterio_open signed = Ok src /\
    pixel_window src bbox = Ok w /\
    assets item !! band = Some asset /\
    sign (href asset) = Ok signed_band /\
    rasterio_open signed_band = Ok bsrc /\
    read bsrc 1%nat w (256%nat, 256%nat) = Ok arr /\
    last_dim preview = Ok (length bands) /\
    select_last k preview = Ok plane /\
    shape plane = shape arr /\
    data plane = data arr.
Proof.
  intros Hok Hk.
  destruct (is_ok_true _ Hok) as [[preview t] Hrb].
  destruct (read_band_Ok _ _ _ _ _ Hrb)
    as (signed & src & w & arrs & Hs & Ho & Hw & Harrs & Hp & Ht).
  destruct (for_each_lookup _ _ _ _ _ Harrs Hk) as (arr & Hak & Hread).
  destruct (read_one_Ok _ _ _ Hread)
    as (asset & signed_band & bsrc & Hitem & Hs' & Ho' & Hr).
  assert (Hwf : Forall well_formed arrs).
  { apply Forall_forall. intros a Ha.
    apply list_elem_of_lookup in Ha as [i Hi].
    destruct (Forall2_lookup_r _ _ _ _ _
                (for_each_Forall2 _ _ _ Harrs) Hi) as (b & _ & Hb).
    apply (read_one_well_formed _ _ _ Hb). }
  destruct (select_stack _ _ _ _ _ Hp Hwf Hak)
    as (plane & Hsel & Hshape & Hdata).
  destruct (np_stack_Ok _ _ _ Hp) as (a0 & rest & _ & _ & Hps & _).
  exists preview, t, signed, src, w, asset, signed_band, bsrc, arr, plane.
  repeat split; try assumption.
  rewrite (last_dim_snoc _ _ _ Hps).
  rewrite (for_each_length _ _ _ Harrs). reflexivity.
Qed.

(** C6.  The transform [read_band] returns is the transform of the
    reference dataset, the one opened from the signed [asset_href] to
    form the window: the same for every box and every list of bands,
    not one computed for the crop. *)
Theorem read_band_transform (asset_href : string) (bbox : BBox)
    (bands : list string) :
  is_ok (read_band asset_href bbox bands) = true ->
  exists signed src,
    sign asset_href = Ok signed /\
    rasterio_open signed = Ok src /\
    (exists w, pixel_window src bbox = Ok w) /\
    (exists preview,
       read_band asset_href bbox bands
         = Ok (preview, src_transform src)) /\
    (forall bbox' bands' preview' t',
       read_band asset_href bbox' bands' = Ok (preview', t') ->
       t' = src_transform src).
Proof.
  intros Hok.
  destruct (is_ok_true _ Hok) as [[preview t] Hrb].
  destruct (read_band_Ok _ _ _ _ _ Hrb)
    as (signed & src & w & arrs & Hs & Ho & Hw & _ & _ & Ht).
  exists signed, src. repeat split; try assumption.
  - exists w. exact Hw.
  - exists preview. rewrite Hrb, Ht. reflexivity.
  - intros bbox' bands' preview' t' H'.
    destruct (read_band_Ok _ _ _ _ _ H')
      as (signed' & src' & _ & _ & Hs' & Ho' & _ & _ & _ & Ht').
    rewrite Hs in Hs'. injection Hs' as <-.
    rewrite Ho in Ho'. injection Ho' as <-. exact Ht'.
Qed.

(** C7.  When [bands] names a band the item has no asset for,
    [read_band] raises and returns no array; the exception is the failed
    lookup of that band whenever the steps before it went through; and
    the run of the script ends there, without image or file. *)
Theorem read_band_missing_band (asset_href : string) (bbox : BBox)
    (bands : list string) (band : string) (button : bool) :
  band ∈ bands ->
  assets item !! band = None ->
  (exists e, read_band asset_href bbox bands = Err e) /\
  (forall signed src w pre post,
     sign asset_href = Ok signed ->
     rasterio_open signed = Ok src ->
     pixel_window src bbox = Ok w ->
     bands = pre ++ band :: post ->
     Forall (fun b => is_ok (read_one w b) = true) pre ->
     read_band asset_href bbox bands = Err (KeyError band)) /\
  (exists e, script bbox bands button = Err e).
Proof.
  intros Hin Hmiss.
  assert (Hrb : exists e, read_band asset_href bbox bands = Err e).
  { unfold read_band.
    destruct (sign asset_href) as [signed|]; simpl; [|eauto].
    destruct (rasterio_open signed) as [src|]; simpl; [|eauto].
    destruct (pixel_window src bbox) as [w|]; simpl; [|eauto].
    destruct (for_each_elem_Err (read_one w) bands band _ Hin
                (read_one_missing w band Hmiss)) as [e ->].
    simpl. eauto. }
  split; [exact Hrb|]. split.
  - intros signed src w pre post Hs Ho Hw -> Hpre.
    rewrite (read_band_from_window _ _ _ _ _ _ Hs Ho Hw).
    rewrite (for_each_first_Err _ pre band post _ Hpre
               (read_one_missing w band Hmiss)).
    reflexivity.
  - unfold script.
    destruct (getitem (assets item) "B04") as [b04|]; simpl; [|eauto].
    assert (Hb : exists e, read_band (href b04) bbox bands = Err e).
    { unfold read_band.
      destruct (sign (href b04)) as [signed|]; simpl; [|eauto].
      destruct (rasterio_open signed) as [src|]; simpl; [|eauto].
      destruct (pixel_window src bbox) as [w|]; simpl; [|eauto].
      destruct (for_each_elem_Err (read_one w) bands band _ Hin
                  (read_one_missing w band Hmiss)) as [e ->].
      simpl. eauto. }
    destruct Hb as [e ->]. simpl. eauto.
Qed.

(** The planes of the first [j] bands are the planes of the array. *)
Lemma select_slice_last (a rgb : ndarray Z) s n j k :
  shape a = s ++ [n] ->
  well_formed a ->
  (k < j)%nat -> (j <= n)%nat ->
  slice_last j a = Ok rgb ->
  select_last k rgb = select_last k a.
Proof.
  intros Hs Hwf Hk Hj Hrgb. unfold well_formed in Hwf.
  rewrite Hs, size_of_snoc in Hwf.
  unfold slice_last in Hrgb. rewrite (last_dim_snoc _ _ _ Hs) in Hrgb.
  simpl in Hrgb. injection Hrgb as <-.
  unfold select_last. rewrite (last_dim_snoc _ _ _ Hs).
  rewrite Hs, leading_snoc. simpl.
  rewrite (last_dim_snoc _ s (Nat.min j n)) by reflexivity. simpl.
  rewrite leading_snoc.
  replace (k <? Nat.min j n)%nat with true
    by (symmetry; apply Nat.ltb_lt; lia).
  replace (k <? n)%nat with true by (symmetry; apply Nat.ltb_lt; lia).
  do 2 f_equal.
  pose proof (select_slice n j k (chunks n (size_of s) (data a)) Hk
                (chunks_Forall _ _ _ Hwf)) as E.
  rewrite chunks_length in E. exact E.
Qed.

(** [np.stack] of well-formed arrays is well formed. *)
Lemma np_stack_well_formed (arrs : list (ndarray Z)) p :
  np_stack promote arrs = Ok p ->
  Forall well_formed arrs ->
  well_formed p.
Proof.
  intros Hp Hwf.
  destruct (np_stack_Ok _ _ _ Hp) as (a0 & rest & Harrs & Hsh & Hps & Hpd).
  unfold well_formed. rewrite Hps, Hpd, size_of_snoc.
  assert (Hlen : Forall (fun l => length l = size_of (shape a0))
                   (map data arrs)).
  { apply Forall_map. apply Forall_forall. intros b Hb. simpl.
    rewrite <- (proj1 (Forall_forall _ _) Hsh b Hb).
    exact (proj1 (Forall_forall _ _) Hwf b Hb). }
  rewrite (interleave_length _ _ Hlen), length_map. reflexivity.
Qed.

(** What [read_band] returns: a well-formed 256 x 256 x n array. *)
Lemma read_band_stack asset_href bbox bands preview t :
  read_band asset_href bbox bands = Ok (preview, t) ->
  shape preview = [256; 256; length bands]%nat /\
  well_formed preview /\
  (1 <= length bands)%nat.
Proof.
  intros Hrb.
  destruct (read_band_Ok _ _ _ _ _ Hrb)
    as (signed & src & w & arrs & _ & _ & _ & Harrs & Hp & _).
  assert (Hne : bands <> []).
  { intros ->. simpl in Harrs. injection Harrs as <-. discriminate. }
  destruct (stack_of_reads _ _ _ Hne Harrs) as (p & Hp' & Hshape).
  rewrite Hp in Hp'. injection Hp' as <-.
  split; [exact Hshape|]. split.
  - apply (np_stack_well_formed _ _ Hp).
    apply Forall_forall. intros a Ha.
    apply list_elem_of_lookup in Ha as [i Hi].
    destruct (Forall2_lookup_r _ _ _ _ _
                (for_each_Forall2 _ _ _ Harrs) Hi) as (b & _ & Hb).
    apply (read_one_well_formed _ _ _ Hb).
  - destruct bands; [congruence | simpl; lia].
Qed.

(** C8.  On the array [read_band] returns, [img_rgb] does not fail: with
    one or two bands it is the normalised first band, a 256 x 256 image;
    with three or more it is the normalised first three bands, whose
    planes are planes 0, 1 and 2 of the array. *)
Theorem img_rgb_band_count (asset_href : string) (bbox : BBox)
    (bands : list string) :
  is_ok (read_band asset_href bbox bands) = true ->
  exists preview t,
    read_band asset_href bbox bands = Ok (preview, t) /\
    last_dim preview = Ok (length bands) /\
    ((length bands < 3)%nat ->
       exists first,
         select_last 0 preview = Ok first /\
         img_rgb preview = Ok (normalize first) /\
         shape (normalize first) = [256; 256]%nat) /\
    ((3 <= length bands)%nat ->
       exists rgb,
         slice_last 3 preview = Ok rgb /\
         img_rgb preview = Ok (normalize rgb) /\
         shape (normalize rgb) = [256; 256; 3]%nat /\
         forall k, (k < 3)%nat ->
           select_last k rgb = select_last k preview /\
           is_ok (select_last k preview) = true).
Proof.
  intros Hok.
  destruct (is_ok_true _ Hok) as [[preview t] Hrb].
  destruct (read_band_stack _ _ _ _ _ Hrb) as (Hshape & Hwf & Hn).
  assert (Hs : shape preview = [256; 256]%nat ++ [length bands])
    by exact Hshape.
  pose proof (last_dim_snoc _ _ _ Hs) as Hlast.
  exists preview, t. split; [exact Hrb|]. split; [exact Hlast|]. split.
  - intros Hlt.
    assert (Hsel : is_ok (select_last 0 preview) = true).
    { unfold select_last. rewrite Hlast. cbn [bind].
      replace (0 <? length bands)%nat with true
        by (symmetry; apply Nat.ltb_lt; lia).
      reflexivity. }
    destruct (is_ok_true _ Hsel) as [first Hfirst].
    exists first. split; [exact Hfirst|]. split.
    + unfold img_rgb. rewrite Hlast. cbn [bind].
      replace (3 <=? length bands)%nat with false
        by (symmetry; apply Nat.leb_gt; lia).
      rewrite Hfirst. reflexivity.
    + unfold select_last in Hfirst. rewrite Hlast in Hfirst.
      cbn [bind] in Hfirst.
      destruct (0 <? length bands)%nat; [|discriminate].
      injection Hfirst as <-. cbn [normalize shape].
      rewrite Hs, leading_snoc. reflexivity.
  - intros Hge.
    assert (Hsl : is_ok (slice_last 3 preview) = true).
    { unfold slice_last. rewrite Hlast. reflexivity. }
    destruct (is_ok_true _ Hsl) as [rgb Hrgb].
    exists rgb. split; [exact Hrgb|]. split; [|split].
    + unfold img_rgb. rewrite Hlast. cbn [bind].
      replace (3 <=? length bands)%nat with true
        by (symmetry; apply Nat.leb_le; lia).
      rewrite Hrgb. reflexivity.
    + unfold slice_last in Hrgb. rewrite Hlast in Hrgb.
      cbn [bind] in Hrgb. injection Hrgb as <-. cbn [normalize shape].
      rewrite Hs, leading_snoc.
      change ([256; 256; Nat.min 3 (length bands)]%nat
              = [256; 256; 3]%nat).
      rewrite (Nat.min_l 3 _ Hge). reflexivity.
    + intros k Hk. split.
      * apply (select_slice_last _ _ _ _ 3%nat k Hs Hwf Hk Hge Hrgb).
      * unfold select_last. rewrite Hlast. cbn [bind].
        replace (k <? length bands)%nat with true
          by (symmetry; apply Nat.ltb_lt; lia).
        reflexivity.
Qed.

(** C10.  The pixels come from the assets of the global [item]: each
    band array is read from the dataset the item lists under that band
    name.  [asset_href] reaches the result through the window and the
    transform only; two calls that differ in [asset_href] alone and
    form the same window return the same pixels and raise the same
    exceptions. *)
Theorem read_band_pixels_from_item (href1 href2 : string) (bbox : BBox)
    (bands : list string) (signed1 signed2 : string)
    (src1 src2 : source) (w : Window) :
  sign href1 = Ok signed1 -> rasterio_open signed1 = Ok src1 ->
  sign href2 = Ok signed2 -> rasterio_open signed2 = Ok src2 ->
  pixel_window src1 bbox = Ok w ->
  pixel_window src2 bbox = Ok w ->
  (forall preview t,
     read_band href1 bbox bands = Ok (preview, t) ->
     t = src_transform src1 /\
     read_band href2 bbox bands = Ok (preview, src_transform src2) /\
     exists arrs,
       np_stack promote arrs = Ok preview /\
       Forall2
         (fun band arr =>
            exists asset signed bsrc,
              assets item !! band = Some asset /\
              sign (href asset) = Ok signed /\
              rasterio_open signed = Ok bsrc /\
              read bsrc 1%nat w (256%nat, 256%nat) = Ok arr)
         bands arrs) /\
  (forall e,
     read_band href1 bbox bands = Err e ->
     read_band href2 bbox bands = Err e).
Proof.
  intros Hs1 Ho1 Hs2 Ho2 Hw1 Hw2.
  rewrite (read_band_from_window _ _ _ _ _ _ Hs1 Ho1 Hw1).
  rewrite (read_band_from_window _ _ _ _ _ _ Hs2 Ho2 Hw2).
  destruct (for_each (read_one w) bands) as [arrs|e0] eqn:Harrs; simpl.
  2:{ split; [discriminate | auto]. }
  destruct (np_stack promote arrs) as [p|e1] eqn:Hp; simpl.
  2:{ split; [discriminate | auto]. }
  split; [|discriminate].
  intros preview t [= <- <-]. repeat split.
  exists arrs. split; [exact Hp|].
  eapply Forall2_impl; [exact (for_each_Forall2 _ _ _ Harrs)|].
  intros band arr H. exact (read_one_Ok _ _ _ H).
Qed.

Lemma np_clip_bounds (x : Q) :
  (0 <= np_clip x 0 3000 <= 3000)%Q.
Proof.
  unfold np_clip. split.
  - apply Q.min_glb; [apply Q.le_max_r | discriminate].
  - apply Q.le_min_r.
Qed.

Lemma round32_eq (x y : Q) : (x == y -> round32 x == round32 y)%Q.
Proof.
  intros E. apply Qle_antisym; apply round32_monotone;
    rewrite E; apply Qle_refl.
Qed.

Lemma normalize_px_bounds (v : Z) : (0 <= normalize_px v <= 1)%Q.
Proof.
  unfold normalize_px.
  destruct (np_clip_bounds (round32 (inject_Z v))) as [Hlo Hhi].
  set (c := np_clip _ 0 3000) in *. split.
  - rewrite <- round32_0. apply round32_monotone.
    apply Qle_shift_div_l; [reflexivity | lra].
  - rewrite <- round32_1. apply round32_monotone.
    apply Qle_shift_div_r; [reflexivity | lra].
Qed.

(** C4.  Every element of [normalize]'s result lies in [0, 1]; the result
    has the shape of the argument, one element for each of its elements:
    the value cast to float32, clipped to [0, 3000] and divided by 3000,
    which is 1 from 3000 upwards and 0 from 0 downwards.  [normalize] is
    total: no input raises. *)
Theorem normalize_unit_interval (arr : ndarray Z) :
  shape (normalize arr) = shape arr /\
  arr_dtype (normalize arr) = float32 /\
  data (normalize arr)
    = map (fun v => round32
             (Qmin (Qmax (round32 (inject_Z v)) 0) 3000 / 3000)%Q)
          (data arr) /\
  Forall (fun q => 0 <= q <= 1)%Q (data (normalize arr)) /\
  (forall v, 3000 <= v -> (normalize_px v == 1)%Q) /\
  (forall v, v <= 0 -> (normalize_px v == 0)%Q).
Proof.
  split; [reflexivity|]. split; [reflexivity|]. split; [reflexivity|].
  split; [|split].
  - simpl. apply Forall_map, Forall_forall. intros v _.
    apply normalize_px_bounds.
  - intros v Hv. unfold normalize_px.
    apply Qeq_trans with (round32 1); [apply round32_eq | exact round32_1].
    assert (H : (3000 <= round32 (inject_Z v))%Q).
    { rewrite <- round32_3000. apply round32_monotone.
      change 3000%Q with (inject_Z 3000). rewrite <- Zle_Qle. exact Hv. }
    unfold np_clip. rewrite Q.max_l by lra. rewrite Q.min_r by lra.
    reflexivity.
  - intros v Hv. unfold normalize_px.
    apply Qeq_trans with (round32 0); [apply round32_eq | exact round32_0].
    assert (H : (round32 (inject_Z v) <= 0)%Q).
    { rewrite <- round32_0. apply round32_monotone.
      change 0%Q with (inject_Z 0). rewrite <- Zle_Qle. exact Hv. }
    unfold np_clip. rewrite Q.max_r by lra. rewrite Q.min_l by lra.
    reflexivity.
Qed.

End Extraction.

(** ** The export *)

Section Download.

Variables (preview : ndarray Z) (h w n : nat).
Hypothesis preview_shape : shape preview = [h; w; n].

(** The elements of [preview[..., k]]. *)
Let plane (k : nat) : list Z :=
  flat_map (fun c => take 1 (drop k c))
    (chunks n (size_of [h; w]) (data preview)).

Lemma select_last_plane k :
  (k < n)%nat ->
  select_last k preview
    = Ok (mk_ndarray (arr_dtype preview) [h; w] (plane k)).
Proof.
  intros Hk. unfold select_last.
  assert (Hs : shape preview = [h; w] ++ [n]) by exact preview_shape.
  rewrite (last_dim_snoc _ _ _ Hs). cbn [bind].
  replace (k <? n)%nat with true by (symmetry; apply Nat.ltb_lt; lia).
  rewrite Hs, leading_snoc. reflexivity.
Qed.

(** The loop writes plane [i] of the array into band [i+1], and leaves
    the profile and the bands before [k] alone. *)
Lemma write_planes_planes todo : forall k driver dt crs t planes,
  length planes = n ->
  (k + todo = n)%nat ->
  write_planes preview (mk_geotiff driver h w n dt crs t planes) k todo
    = Ok (mk_geotiff driver h w n dt crs t
            (take k planes ++ map plane (seq k todo))).
Proof.
  induction todo as [|todo IH]; intros k driver dt crs t planes Hlen Hk.
  - simpl. rewrite app_nil_r, take_ge by lia. reflexivity.
  - cbn [write_planes]. rewrite select_last_plane by lia. cbn [bind].
    unfold dst_write. cbn [g_count g_height g_width shape data].
    replace (1 <=? k + 1)%nat with true
      by (symmetry; apply Nat.leb_le; lia).
    replace (k + 1 <=? n)%nat with true
      by (symmetry; apply Nat.leb_le; lia).
    replace (shape_eqb [h; w] [h; w]) with true
      by (symmetry; apply shape_eqb_eq; reflexivity).
    cbn [andb negb bind g_driver g_dtype g_crs g_transform g_planes].
    replace (k + 1 - 1)%nat with k by lia.
    rewrite IH by (rewrite ?length_insert; lia).
    do 2 f_equal.
    rewrite (take_S_r _ k (plane k))
      by (apply list_lookup_insert_eq; lia).
    rewrite take_insert_ge by lia.
    rewrite <- app_assoc. reflexivity.
Qed.

(** C9.  Exporting a rows x columns x bands array creates a GTiff of
    its height, width, band count and dtype, in EPSG:4326 with the given
    transform, whose band [k+1] is plane [k] of the array; re-opening the
    file gives the array and the transform back. *)
Theorem export_reopen_roundtrip (transform : Affine) :
  well_formed preview ->
  (0 < h)%nat -> (0 < w)%nat -> (0 < n)%nat ->
  exists tif,
    export_geotiff preview transform = Ok tif /\
    g_driver tif = "GTiff"%string /\
    g_height tif = h /\ g_width tif = w /\ g_count tif = n /\
    g_dtype tif = arr_dtype preview /\
    g_crs tif = "EPSG:4326"%string /\
    g_transform tif = transform /\
    (forall k, (k < n)%nat ->
       exists band,
         select_last k preview = Ok band /\
         g_planes tif !! k = Some (data band)) /\
    reopen tif = (preview, transform).
Proof.
  intros Hwf Hh Hw Hn.
  unfold export_geotiff, shape_at. rewrite preview_shape.
  cbn [lookup list_lookup bind]. unfold open_w.
  replace ((h =? 0)%nat || (w =? 0)%nat || (n =? 0)%nat) with false.
  2:{ symmetry. rewrite !orb_false_iff, !Nat.eqb_neq. lia. }
  cbn [bind].
  rewrite write_planes_planes by (rewrite ?length_replicate; lia).
  eexists. split; [reflexivity|].
  cbn [g_driver g_height g_width g_count g_dtype g_crs g_transform
       g_planes take app].
  repeat (split; [reflexivity|]). split.
  - intros k Hk. eexists. split; [apply select_last_plane, Hk|].
    rewrite take_0. cbn [data app].
    rewrite list_lookup_fmap, lookup_seq_lt by lia.
    reflexivity.
  - unfold reopen.
    cbn [g_height g_width g_count g_dtype g_transform g_planes].
    rewrite take_0. cbn [app].
    f_equal. etransitivity; [|symmetry; apply ndarray_eta].
    rewrite preview_shape. f_equal.
    replace (h * w)%nat with (size_of [h; w]) by (simpl; lia).
    exact (stack_planes preview [h; w] n preview_shape Hwf).
Qed.

End Download.

(** ** The theorems at work on the concrete world *)

Lemma demo_read_shape : forall s i w sh a,
  Demo.read s i w sh = Ok a -> shape a = [sh.1; sh.2].
Proof.
  intros s i w sh a H. unfold Demo.read in H.
  destruct (_ || _); [discriminate|]. injection H as <-. reflexivity.
Qed.

Lemma demo_read_well_formed : forall s i w sh a,
  Demo.read s i w sh = Ok a -> well_formed a.
Proof.
  intros s i w sh a H. unfold Demo.read in H.
  destruct (_ || _); [discriminate|]. injection H as <-.
  unfold well_formed. cbn [data shape].
  rewrite length_replicate. cbn [size_of foldr]. lia.
Qed.

Lemma demo_read_range : forall s i w sh,
  Demo.ds_height s <= row_off w \/ Demo.ds_width s <= col_off w ->
  is_ok (Demo.read s i w sh) = false.
Proof.
  intros s i w sh H. unfold Demo.read.
  destruct (Demo.ds_height s <=? row_off w) eqn:E1; [reflexivity|].
  destruct (Demo.ds_width s <=? col_off w) eqn:E2; [reflexivity|].
  apply Z.leb_gt in E1, E2. lia.
Qed.

Lemma pixel_window_corner_order_witness :
  pixel_window Demo.index Demo.fine_b04 Demo.bbox
    = Ok (mk_window 2274 41121 40 40) /\
  (41121 = Z.min 41121 41161 /\ 41121 + 40 = Z.max 41121 41161 /\
   2274 = Z.min 2274 2314 /\ 2274 + 40 = Z.max 2274 2314).
Proof.
  split; [vm_compute; reflexivity|].
  destruct (pixel_window_corner_order Demo.dataset Demo.sign
              Demo.rasterio_open Demo.index Demo.ds_transform Demo.read
              Demo.promote Demo.item_fine Demo.fine_b04
              (left Demo.bbox) (top Demo.bbox)
              (right Demo.bbox) (bottom Demo.bbox)
              "fine/B04.tif" ["B04"%string]) as [H _].
  exact (H (mk_window 2274 41121 40 40) eq_refl).
Defined.

(** The default box is valid, lies inside the 0.1 degree raster, and its
    two corners fall in the same pixel row: the window has height 0,
    against C2. *)
Lemma valid_bbox_empty_window :
  ~ ((left Demo.bbox < right Demo.bbox)%Q ->
     (bottom Demo.bbox < top Demo.bbox)%Q ->
     exists w,
       pixel_window Demo.index Demo.coarse_b04 Demo.bbox = Ok w /\
       0 < width w /\ 0 < height w).
Proof.
  intros H. destruct H as (w & Hw & _ & Hh); [reflexivity | reflexivity |].
  vm_compute in Hw. injection Hw as <-. discriminate Hh.
Qed.

Lemma pixel_window_extent_witness :
  pixel_window Demo.index Demo.fine_b04 Demo.bbox
    = Ok (mk_window 2274 41121 40 40) /\
  (0 < 40 <-> 2274 <> 2314).
Proof.
  split; [vm_compute; reflexivity|].
  destruct (pixel_window_extent _ Demo.index Demo.fine_b04 Demo.bbox)
    as [H _].
  destruct (H (mk_window 2274 41121 40 40)) as (_ & _ & _ & _ & Hw & _);
    [vm_compute; reflexivity|].
  exact Hw.
Defined.

Lemma normalize_unit_interval_witness :
  Forall (fun q => 0 <= q <= 1)%Q
    (data (normalize Demo.round32 Demo.samples)) /\
  (normalize_px Demo.round32 10000 == 1)%Q /\
  (normalize_px Demo.round32 (-5) == 0)%Q.
Proof.
  destruct (normalize_unit_interval Demo.round32) with (arr := Demo.samples)
    as (_ & _ & _ & Hall & Hhi & Hlo).
  - intros x y Hxy. exact Hxy.
  - reflexivity.
  - reflexivity.
  - reflexivity.
  - split; [exact Hall|]. split; [apply Hhi | apply Hlo]; lia.
Defined.

Lemma read_band_band_order_witness :
  exists preview t signed src w asset signed_band bsrc arr plane,
    Demo.read_band_fine "fine/B04.tif" Demo.bbox ["B08"; "B04"]%string
      = Ok (preview, t) /\
    Demo.sign "fine/B04.tif" = Ok signed /\
    Demo.rasterio_open signed = Ok src /\
    pixel_window Demo.index src Demo.bbox = Ok w /\
    assets Demo.item_fine !! "B08"%string = Some asset /\
    Demo.sign (href asset) = Ok signed_band /\
    Demo.rasterio_open signed_band = Ok bsrc /\
    Demo.read bsrc 1%nat w (256%nat, 256%nat) = Ok arr /\
    last_dim preview = Ok (length ["B08"; "B04"]%string) /\
    select_last 0 preview = Ok plane /\
    shape plane = shape arr /\
    data plane = data arr.
Proof.
  apply (read_band_band_order Demo.dataset Demo.sign Demo.rasterio_open
           Demo.index Demo.ds_transform Demo.read Demo.promote
           Demo.item_fine demo_read_well_formed).
  - vm_compute; reflexivity.
  - reflexivity.
Defined.

Lemma read_band_transform_witness :
  exists signed src,
    Demo.sign "fine/B04.tif" = Ok signed /\
    Demo.rasterio_open signed = Ok src /\
    (exists w, pixel_window Demo.index src Demo.bbox = Ok w) /\
    (exists preview,
       Demo.read_band_fine "fine/B04.tif" Demo.bbox ["B04"; "B03"]%string
         = Ok (preview, Demo.ds_transform src)) /\
    (forall bbox' bands' preview' t',
       Demo.read_band_fine "fine/B04.tif" bbox' bands' = Ok (preview', t') ->
       t' = Demo.ds_transform src).
Proof.
  apply (read_band_transform Demo.dataset Demo.sign Demo.rasterio_open
           Demo.index Demo.ds_transform Demo.read Demo.promote
           Demo.item_fine).
  vm_compute; reflexivity.
Defined.

Lemma read_band_missing_band_witness :
  (exists e,
     Demo.read_band_coarse "coarse/B04.tif" Demo.bbox
       ["B04"; "B08"]%string = Err e) /\
  Demo.read_band_coarse "coarse/B04.tif" Demo.bbox ["B04"; "B08"]%string
    = Err (KeyError "B08") /\
  (exists e,
     script Demo.sign Demo.rasterio_open Demo.index Demo.ds_transform
       Demo.read Demo.promote Demo.round32 Demo.item_coarse Demo.bbox
       ["B04"; "B08"]%string true = Err e).
Proof.
  destruct (read_band_missing_band Demo.dataset Demo.sign
              Demo.rasterio_open Demo.index Demo.ds_transform Demo.read
              Demo.promote Demo.round32 Demo.item_coarse
              "coarse/B04.tif" Demo.bbox ["B04"; "B08"]%string
              "B08"%string true) as (Hfail & Hkey & Hscript).
  - apply list_elem_of_In. right. left. reflexivity.
  - vm_compute; reflexivity.
  - split; [exact Hfail|]. split; [|exact Hscript].
    apply (Hkey "coarse/B04.tif?sig"%string Demo.coarse_b04
             (mk_window 22 411 1 0) ["B04"%string] []).
    + reflexivity.
    + vm_compute; reflexivity.
    + vm_compute; reflexivity.
    + reflexivity.
    + repeat constructor; vm_compute; reflexivity.
Defined.

Lemma img_rgb_band_count_witness :
  exists preview t,
    Demo.read_band_fine "fine/B04.tif" Demo.bbox ["B08"; "B04"]%string
      = Ok (preview, t) /\
    last_dim preview = Ok 2%nat /\
    exists first,
      select_last 0 preview = Ok first /\
      img_rgb Demo.round32 preview = Ok (normalize Demo.round32 first) /\
      shape (normalize Demo.round32 first) = [256; 256]%nat.
Proof.
  destruct (img_rgb_band_count Demo.dataset Demo.sign Demo.rasterio_open
              Demo.index Demo.ds_transform Demo.read Demo.promote
              Demo.round32 Demo.item_fine demo_read_shape
              demo_read_well_formed
              "fine/B04.tif" Demo.bbox ["B08"; "B04"]%string)
    as (preview & t & Hrb & Hlast & Hgray & _).
  - vm_compute; reflexivity.
  - exists preview, t. split; [exact Hrb|]. split; [exact Hlast|].
    apply Hgray. simpl. lia.
Defined.

Lemma export_reopen_roundtrip_witness :
  exists tif,
    export_geotiff Demo.tile Demo.fine = Ok tif /\
    g_planes tif = [[11; 12; 13; 14]; [21; 22; 23; 24]] /\
    reopen tif = (Demo.tile, Demo.fine).
Proof.
  destruct (export_reopen_roundtrip Demo.tile 2 2 2 eq_refl Demo.fine)
    as (tif & Hexp & _ & _ & _ & _ & _ & _ & _ & _ & Hre);
    [reflexivity | lia | lia | lia |].
  exists tif. split; [exact Hexp|]. split; [|exact Hre].
  vm_compute in Hexp. injection Hexp as <-. reflexivity.
Defined.

Lemma read_band_pixels_from_item_witness :
  exists preview,
    Demo.read_band_fine "fine/B04.tif" Demo.bbox ["B04"; "B03"]%string
      = Ok (preview, Demo.fine) /\
    Demo.read_band_fine "fine/B08.tif" Demo.bbox ["B04"; "B03"]%string
      = Ok (preview, Demo.fine).
Proof.
  destruct (read_band_pixels_from_item Demo.dataset Demo.sign
              Demo.rasterio_open Demo.index Demo.ds_transform Demo.read
              Demo.promote Demo.item_fine
              "fine/B04.tif" "fine/B08.tif" Demo.bbox
              ["B04"; "B03"]%string
              "fine/B04.tif?sig" "fine/B08.tif?sig"
              Demo.fine_b04 Demo.fine_b08 (mk_window 2274 41121 40 40))
    as [Hok _].
  1-6: vm_compute; reflexivity.
  assert (X : is_ok (Demo.read_band_fine "fine/B04.tif" Demo.bbox
                       ["B04"; "B03"]%string) = true)
    by (vm_compute; reflexivity).
  unfold Demo.read_band_fine in *.
  destruct (read_band _ _ _ _ _ _ _ "fine/B04.tif" _ _)
    as [[preview t]|e] eqn:E; [|discriminate X].
  destruct (Hok preview t eq_refl) as (Ht & H2 & _).
  exists preview. rewrite Ht. split; [reflexivity | exact H2].
Defined.

(** ** The calls of [read_band] *)

Section Scopes.

Lemma scoped_nil k : scoped k [].
Proof. intros st rest d. simpl. split; [reflexivity | lia]. Qed.

Lemma scoped_app k l1 l2 : scoped k l1 -> scoped k l2 -> scoped k (l1 ++ l2).
Proof.
  intros H1 H2 st rest d. rewrite <- app_assoc.
  destruct (H1 st (l2 ++ rest) d) as [-> P1].
  destruct (H2 st rest d) as [-> P2]. split; [reflexivity | lia].
Qed.

Lemma scoped_le k k' l : (k <= k')%nat -> scoped k l -> scoped k' l.
Proof.
  intros Hk H st rest d. destruct (H st rest d) as [-> P].
  split; [reflexivity | lia].
Qed.

Lemma scoped_sign h : scoped 0 [EvSign h].
Proof. intros st rest d. simpl. split; [reflexivity | lia]. Qed.

Lemma scoped_read h w : scoped 0 [EvRead h w].
Proof. intros st rest d. simpl. split; [reflexivity | lia]. Qed.

Lemma scoped_open_failed h : scoped 0 [EvOpen h false].
Proof. intros st rest d. simpl. split; [reflexivity | lia]. Qed.

(** A [with] block adds one level around its body. *)
Lemma scoped_with k h body :
  scoped k body -> scoped (S k) (EvOpen h true :: body ++ [EvClose h]).
Proof.
  intros H st rest d. cbn [app handles peak]. rewrite <- app_assoc.
  destruct (H (h :: st) ([EvClose h] ++ rest) (S d)) as [-> P].
  cbn [app handles peak] in *. rewrite decide_True by reflexivity.
  split; [reflexivity|]. simpl pred in P. lia.
Qed.

Lemma scoped_tbind {A B : Type} k (m : traced A) (f : A -> traced B) :
  scoped k m.1 -> (forall a, scoped k (f a).1) -> scoped k (tbind m f).1.
Proof.
  intros Hm Hf. destruct m as [log [a|e]]; simpl in *; [|exact Hm].
  specialize (Hf a). destruct (f a) as [log' r]. simpl in *.
  apply scoped_app; assumption.
Qed.

Lemma scoped_tfor_each {A B : Type} k (f : A -> traced B) xs :
  (forall x, scoped k (f x).1) -> scoped k (tfor_each f xs).1.
Proof.
  intros Hf. induction xs as [|x xs IH]; simpl; [apply scoped_nil|].
  apply scoped_tbind; [apply Hf|]. intros y.
  apply scoped_tbind; [exact IH|]. intros ys. apply scoped_nil.
Qed.

Lemma tbind_result {A B : Type} (m : traced A) (f : A -> traced B) :
  (tbind m f).2 = bind m.2 (fun a => (f a).2).
Proof.
  destruct m as [log [a|e]]; simpl; [|reflexivity].
  destruct (f a); reflexivity.
Qed.

Lemma tfor_each_result {A B : Type} (f : A -> traced B) xs :
  (tfor_each f xs).2 = for_each (fun x => (f x).2) xs.
Proof.
  induction xs as [|x xs IH]; simpl; [reflexivity|].
  rewrite tbind_result. destruct (f x).2; simpl; [|reflexivity].
  rewrite tbind_result, IH. destruct (for_each _ xs); reflexivity.
Qed.

End Scopes.

Section Calls.

Variable source : Type.
Variable sign : string -> result string.
Variable rasterio_open : string -> result source.
Variable index : source -> Q -> Q -> Z * Z.
Variable src_transform : source -> Affine.
Variable read : source -> nat -> Window -> nat * nat -> result (ndarray Z).
Variable promote : dtype -> dtype -> dtype.
Variable item : Item.

Abbreviation pixel_window := (pixel_window index).
Abbreviation read_one := (read_one sign rasterio_open read item).
Abbreviation read_band :=
  (read_band sign rasterio_open index src_transform read promote item).
Abbreviation with_open := (with_open rasterio_open).
Abbreviation read_one_traced :=
  (read_one_traced sign rasterio_open read item).
Abbreviation read_band_traced :=
  (read_band_traced sign rasterio_open index src_transform read promote
     item).

(** The asset href and the signed href of a band that is read. *)
Let called (band : string) (c : string * string) : Prop :=
  exists asset,
    assets item !! band = Some asset /\ href asset = c.1 /\
    sign c.1 = Ok c.2 /\ is_ok (rasterio_open c.2) = true.

Lemma with_open_result {A : Type} h (body : source -> traced A) :
  (with_open h body).2 = bind (rasterio_open h) (fun src => (body src).2).
Proof.
  unfold with_open. destruct (rasterio_open h) as [src|]; [|reflexivity].
  simpl. destruct (body src); reflexivity.
Qed.

Lemma with_open_scoped {A : Type} k h (body : source -> traced A) :
  (forall src, scoped k (body src).1) -> scoped (S k) (with_open h body).1.
Proof.
  intros Hb. unfold with_open.
  destruct (rasterio_open h) as [src|].
  - specialize (Hb src). destruct (body src) as [log r]. simpl in *.
    apply scoped_with, Hb.
  - simpl. eapply scoped_le; [|apply scoped_open_failed]. lia.
Qed.

Lemma read_one_traced_result w band :
  (read_one_traced w band).2 = read_one w band.
Proof.
  unfold read_one_traced, read_one. rewrite tbind_result.
  cbn [lift snd].
  destruct (getitem _ band) as [asset|]; [|reflexivity]. cbn [bind].
  rewrite tbind_result. cbn [traced_sign snd].
  destruct (sign (href asset)) as [bh|]; [|reflexivity]. cbn [bind].
  rewrite with_open_result. reflexivity.
Qed.

Lemma read_one_traced_scoped w band : scoped 1 (read_one_traced w band).1.
Proof.
  unfold read_one_traced.
  apply scoped_tbind; [apply scoped_nil|]. intros asset.
  apply scoped_tbind.
  - eapply scoped_le; [|apply scoped_sign]. lia.
  - intros bh. apply with_open_scoped. intros bsrc. apply scoped_read.
Qed.

Lemma read_band_traced_result asset_href bbox bands :
  (read_band_traced asset_href bbox bands).2
    = read_band asset_href bbox bands.
Proof.
  unfold read_band_traced, read_band. rewrite tbind_result.
  cbn [traced_sign snd].
  destruct (sign asset_href) as [signed|]; [|reflexivity]. cbn [bind].
  rewrite with_open_result.
  destruct (rasterio_open signed) as [src|]; [|reflexivity]. cbn [bind].
  rewrite tbind_result. cbn [lift snd].
  destruct (pixel_window src bbox) as [w|]; [|reflexivity]. cbn [bind].
  rewrite tbind_result, tfor_each_result.
  rewrite (for_each_ext _ (read_one w)) by apply read_one_traced_result.
  destruct (for_each _ bands) as [arrs|]; [|reflexivity]. cbn [bind].
  rewrite tbind_result. cbn [lift snd].
  destruct (np_stack promote arrs); reflexivity.
Qed.

(** X1.  Whatever happens in [read_band], by return or by exception at
    any step, every dataset it opened has been closed again, innermost
    first, and never more than two were open at once.  The function with
    its log returns what [read_band] returns. *)
Theorem read_band_releases (asset_href : string) (bbox : BBox)
    (bands : list string) :
  (read_band_traced asset_href bbox bands).2
    = read_band asset_href bbox bands /\
  handles (read_band_traced asset_href bbox bands).1 [] = Some [] /\
  (peak (read_band_traced asset_href bbox bands).1 0 <= 2)%nat.
Proof.
  split; [apply read_band_traced_result|].
  assert (H : scoped 2 (read_band_traced asset_href bbox bands).1).
  { unfold read_band_traced. apply scoped_tbind.
    - eapply scoped_le; [|apply scoped_sign]. lia.
    - intros signed. apply with_open_scoped. intros src.
      apply scoped_tbind; [apply scoped_nil|]. intros w.
      apply scoped_tbind.
      + apply scoped_tfor_each, read_one_traced_scoped.
      + intros arrs. apply scoped_tbind; [apply scoped_nil|].
        intros p. apply scoped_nil. }
  destruct (H [] [] 0%nat) as [Hh Hp]. rewrite app_nil_r in Hh, Hp.
  split; [exact Hh | simpl in Hp; lia].
Qed.

Lemma read_one_traced_Ok w band arr :
  read_one w band = Ok arr ->
  exists c, called band c /\
    read_one_traced w band = (band_calls w c, Ok arr).
Proof.
  unfold read_one, read_one_traced, getitem. intros H.
  destruct (assets item !! band) as [asset|] eqn:Ha; [|discriminate].
  cbn [bind lift tbind] in *.
  unfold traced_sign.
  destruct (sign (href asset)) as [bh|] eqn:Hs; [|discriminate].
  cbn [bind tbind] in *. unfold with_open.
  destruct (rasterio_open bh) as [bsrc|] eqn:Ho; [|discriminate].
  cbn [bind app] in *. rewrite H.
  exists (href asset, bh). split; [|reflexivity].
  exists asset. cbn [fst snd]. rewrite Ho. auto.
Qed.

Lemma read_one_traced_missing w band :
  assets item !! band = None ->
  read_one_traced w band = ([], Err (KeyError band)).
Proof.
  intros H. unfold read_one_traced, getitem. rewrite H. reflexivity.
Qed.

(** The log of a loop in which every band is read. *)
Lemma tfor_each_read w bands arrs :
  for_each (read_one w) bands = Ok arrs ->
  exists calls,
    Forall2 called bands calls /\
    tfor_each (read_one_traced w) bands
      = (flat_map (band_calls w) calls, Ok arrs).
Proof.
  revert arrs; induction bands as [|band bands IH]; intros arrs H.
  - injection H as <-. exists []. split; [constructor | reflexivity].
  - cbn [for_each] in H.
    destruct (read_one w band) as [arr|] eqn:Hb; [|discriminate].
    cbn [bind] in H.
    destruct (for_each (read_one w) bands) as [rest|]; [|discriminate].
    injection H as <-.
    destruct (read_one_traced_Ok _ _ _ Hb) as (c & Hc & Hlog).
    destruct (IH rest eq_refl) as (calls & Hcalls & Hlogs).
    exists (c :: calls). split; [constructor; assumption|].
    cbn [tfor_each]. rewrite Hlog. cbn [tbind]. rewrite Hlogs.
    cbn [tbind tret flat_map]. rewrite app_nil_r. reflexivity.
Qed.

(** The loop stops at a band that raises before calling anything. *)
Lemma tfor_each_stop {A B : Type} (f : A -> traced B) pre x post log ys e :
  tfor_each f pre = (log, Ok ys) ->
  f x = ([], Err e) ->
  tfor_each f (pre ++ x :: post) = (log, Err e).
Proof.
  revert log ys; induction pre as [|x0 pre IH]; intros log ys Hpre Hx.
  - injection Hpre as <- <-. cbn [app tfor_each]. rewrite Hx. reflexivity.
  - cbn [app tfor_each] in *.
    destruct (f x0) as [l0 [y0|e0]]; cbn [tbind] in *; [|discriminate].
    destruct (tfor_each f pre) as [l1 [ys1|e1]]; cbn [tbind tret] in *;
      [|discriminate].
    injection Hpre as <- <-.
    rewrite (IH l1 ys1 eq_refl Hx). cbn [tbind].
    rewrite app_nil_r. reflexivity.
Qed.

Lemma signs_band_calls w calls :
  signs (flat_map (band_calls w) calls) = map fst calls.
Proof. induction calls as [|c calls IH]; simpl; [|rewrite IH]; reflexivity. Qed.

Lemma opens_band_calls w calls :
  opens (flat_map (band_calls w) calls) = map snd calls.
Proof. induction calls as [|c calls IH]; simpl; [|rewrite IH]; reflexivity. Qed.

Lemma reads_band_calls w calls :
  reads (flat_map (band_calls w) calls) = map (fun c => (c.2, w)) calls.
Proof. induction calls as [|c calls IH]; simpl; [|rewrite IH]; reflexivity. Qed.

Lemma signs_app l1 l2 : signs (l1 ++ l2) = signs l1 ++ signs l2.
Proof. apply flat_map_app. Qed.

Lemma opens_app l1 l2 : opens (l1 ++ l2) = opens l1 ++ opens l2.
Proof. apply flat_map_app. Qed.

Lemma reads_app l1 l2 : reads (l1 ++ l2) = reads l1 ++ reads l2.
Proof. apply flat_map_app. Qed.

(** X2.  A successful [read_band] makes these calls and no others: the
    reference href is signed and opened; then, band by band in the order
    of [bands], the href of the item's asset is signed, opened, read once
    through the one window and closed; then the reference is closed.  So
    [rasterio.open] is called once more than there are bands, a band that
    is also the reference is opened a second time, and the reference
    dataset itself is never read. *)
Theorem read_band_calls (asset_href : string) (bbox : BBox)
    (bands : list string) :
  is_ok (read_band asset_href bbox bands) = true ->
  exists signed src w calls,
    sign asset_href = Ok signed /\
    rasterio_open signed = Ok src /\
    pixel_window src bbox = Ok w /\
    Forall2
      (fun band c =>
         exists asset,
           assets item !! band = Some asset /\ href asset = c.1 /\
           sign c.1 = Ok c.2 /\ is_ok (rasterio_open c.2) = true)
      bands calls /\
    (read_band_traced asset_href bbox bands).1
      = EvSign asset_href :: EvOpen signed true
          :: flat_map (band_calls w) calls ++ [EvClose signed] /\
    signs (read_band_traced asset_href bbox bands).1
      = asset_href :: map fst calls /\
    opens (read_band_traced asset_href bbox bands).1
      = signed :: map snd calls /\
    reads (read_band_traced asset_href bbox bands).1
      = map (fun c => (c.2, w)) calls /\
    length (opens (read_band_traced asset_href bbox bands).1)
      = S (length bands).
Proof.
  intros Hok.
  destruct (read_band asset_href bbox bands) as [[p t]|] eqn:Hrb;
    [|discriminate].
  unfold read_band in Hrb.
  destruct (sign asset_href) as [signed|] eqn:Hs; [|discriminate].
  cbn [bind] in Hrb.
  destruct (rasterio_open signed) as [src|] eqn:Ho; [|discriminate].
  cbn [bind] in Hrb.
  destruct (pixel_window src bbox) as [w|] eqn:Hw; [|discriminate].
  cbn [bind] in Hrb.
  destruct (for_each (read_one w) bands) as [arrs|] eqn:Ha;
    [|discriminate].
  cbn [bind] in Hrb.
  destruct (np_stack promote arrs) as [q|] eqn:Hq; [|discriminate].
  destruct (tfor_each_read _ _ _ Ha) as (calls & Hcalls & Hlog).
  assert (E : (read_band_traced asset_href bbox bands).1
              = EvSign asset_href :: EvOpen signed true
                  :: flat_map (band_calls w) calls ++ [EvClose signed]).
  { unfold read_band_traced, traced_sign. rewrite Hs. cbn [tbind].
    unfold with_open. rewrite Ho, Hw. cbn [lift tbind]. rewrite Hlog.
    cbn [tbind]. rewrite Hq. cbn [tbind tret fst app].
    rewrite !app_nil_r. reflexivity. }
  exists signed, src, w, calls. rewrite E.
  split; [reflexivity|]. split; [exact Ho|]. split; [exact Hw|].
  split; [exact Hcalls|]. split; [reflexivity|].
  change (EvSign asset_href :: EvOpen signed true
            :: flat_map (band_calls w) calls ++ [EvClose signed])
    with ([EvSign asset_href; EvOpen signed true]
            ++ flat_map (band_calls w) calls ++ [EvClose signed]).
  rewrite !signs_app, !opens_app, !reads_app.
  rewrite signs_band_calls, opens_band_calls, reads_band_calls.
  cbn [signs opens reads flat_map app]. rewrite !app_nil_r.
  repeat (split; [reflexivity|]).
  cbn [length]. rewrite length_map.
  rewrite <- (Forall2_length _ _ _ Hcalls). reflexivity.
Qed.

(** X3.  When the item has no asset for a band, the loop ends at that
    band without a call for it, and nothing is signed, opened or read for
    the bands after it; what was read for the bands before it is dropped
    with the exception. *)
Theorem read_band_calls_stop (asset_href : string) (bbox : BBox)
    (pre post : list string) (band : string)
    (signed : string) (src : source) (w : Window) :
  sign asset_href = Ok signed ->
  rasterio_open signed = Ok src ->
  pixel_window src bbox = Ok w ->
  Forall (fun b => is_ok (read_one w b) = true) pre ->
  assets item !! band = None ->
  exists calls,
    Forall2
      (fun b c =>
         exists asset,
           assets item !! b = Some asset /\ href asset = c.1 /\
           sign c.1 = Ok c.2 /\ is_ok (rasterio_open c.2) = true)
      pre calls /\
    read_band_traced asset_href bbox (pre ++ band :: post)
      = (EvSign asset_href :: EvOpen signed true
           :: flat_map (band_calls w) calls ++ [EvClose signed],
         Err (KeyError band)).
Proof.
  intros Hs Ho Hw Hpre Hmiss.
  destruct (for_each_total _ _ Hpre) as [arrs Harrs].
  destruct (tfor_each_read _ _ _ Harrs) as (calls & Hcalls & Hlog).
  exists calls. split; [exact Hcalls|].
  unfold read_band_traced, traced_sign. rewrite Hs. cbn [tbind].
  unfold with_open. rewrite Ho, Hw. cbn [lift tbind].
  rewrite (tfor_each_stop _ pre band post _ _ _ Hlog
             (read_one_traced_missing w band Hmiss)).
  cbn [tbind app]. reflexivity.
Qed.

End Calls.

(** ** Slices of stacks *)

Section Slices.

Context {A : Type}.
Variable promote : dtype -> dtype -> dtype.
Implicit Types (l c : list A) (ls cs : list (list A)).

Lemma heads_take j ls :
  Forall (fun l => (0 < length l)%nat) ls ->
  take j (flat_map (take 1) ls) = flat_map (take 1) (take j ls).
Proof.
  intros Hls; revert j; induction Hls as [|l ls Hl _ IH]; intros j.
  - destruct j; reflexivity.
  - destruct l as [|x l]; [simpl in Hl; lia|].
    destruct j as [|j]; simpl; [reflexivity|]. rewrite IH. reflexivity.
Qed.

Lemma map_take {X B : Type} (f : X -> B) j (l : list X) :
  map f (take j l) = take j (map f l).
Proof.
  revert j; induction l as [|x l IH]; intros [|j]; simpl;
    [reflexivity..|]. rewrite IH. reflexivity.
Qed.

(** The first [j] of every column are the columns of the first [j]
    lists. *)
Lemma slice_columns m j ls :
  Forall (fun l => length l = m) ls ->
  flat_map (take j) (columns m ls) = interleave m (take j ls).
Proof.
  unfold interleave.
  revert ls; induction m as [|m IH]; intros ls Hls; simpl;
    [reflexivity|].
  rewrite heads_take
    by (eapply Forall_impl; [exact Hls | simpl; intros; lia]).
  f_equal. rewrite IH.
  - f_equal. f_equal. clear. revert j.
    induction ls as [|l ls IHl]; intros [|j]; simpl; [reflexivity..|].
    rewrite IHl. reflexivity.
  - apply Forall_map. eapply Forall_impl; [exact Hls|].
    simpl. intros l Hl. rewrite length_drop. lia.
Qed.

Lemma slice_full n j cs :
  Forall (fun c => length c = n) cs -> (n <= j)%nat ->
  flat_map (take j) cs = concat cs.
Proof.
  intros Hcs Hj. induction Hcs as [|c cs Hc _ IH]; simpl; [reflexivity|].
  rewrite IH, take_ge by lia. reflexivity.
Qed.

Lemma slice_length n j cs :
  Forall (fun c => length c = n) cs ->
  length (flat_map (take j) cs) = (length cs * Nat.min j n)%nat.
Proof.
  induction 1 as [|c cs Hc _ IH]; simpl; [reflexivity|].
  rewrite length_app, length_take, IH, Hc. lia.
Qed.

Lemma select_length n k cs :
  Forall (fun c => length c = n) cs -> (k < n)%nat ->
  length (flat_map (fun c => take 1 (drop k c)) cs) = length cs.
Proof.
  intros Hcs Hk. induction Hcs as [|c cs Hc _ IH]; simpl; [reflexivity|].
  rewrite length_app, IH, take1_drop_length by lia. reflexivity.
Qed.

Lemma select_last_well_formed (a b : ndarray A) s n k :
  shape a = s ++ [n] -> well_formed a ->
  select_last k a = Ok b ->
  well_formed b /\ shape b = s.
Proof.
  intros Hs Hwf Hb. unfold well_formed in Hwf.
  rewrite Hs, size_of_snoc in Hwf.
  unfold select_last in Hb. rewrite (last_dim_snoc _ _ _ Hs) in Hb.
  cbn [bind] in Hb. destruct (k <? n)%nat eqn:Hk; [|discriminate].
  apply Nat.ltb_lt in Hk. injection Hb as <-.
  unfold well_formed. cbn [data shape]. rewrite Hs, leading_snoc.
  split; [|reflexivity].
  rewrite (select_length n) by (auto using chunks_Forall).
  apply chunks_length.
Qed.

Lemma slice_last_well_formed (a b : ndarray A) s n j :
  shape a = s ++ [n] -> well_formed a ->
  slice_last j a = Ok b ->
  well_formed b /\ shape b = s ++ [Nat.min j n].
Proof.
  intros Hs Hwf Hb. unfold well_formed in Hwf.
  rewrite Hs, size_of_snoc in Hwf.
  unfold slice_last in Hb. rewrite (last_dim_snoc _ _ _ Hs) in Hb.
  cbn [bind] in Hb. injection Hb as <-.
  unfold well_formed. cbn [data shape]. rewrite Hs, leading_snoc.
  split; [|reflexivity].
  rewrite (slice_length n) by (auto using chunks_Forall).
  rewrite chunks_length, size_of_snoc. reflexivity.
Qed.

(** [np.stack(arrs, axis=-1)[..., :j]] has the shape and the elements of
    [np.stack(arrs[:j], axis=-1)]. *)
Lemma slice_stack (arrs : list (ndarray A)) p j :
  np_stack promote arrs = Ok p ->
  Forall well_formed arrs ->
  (1 <= j)%nat ->
  exists p' q,
    np_stack promote (take j arrs) = Ok p' /\
    slice_last j p = Ok q /\
    shape q = shape p' /\ data q = data p'.
Proof.
  intros Hp Hwf Hj.
  destruct (np_stack_Ok _ _ _ Hp) as (a0 & rest & Harrs & Hsh & Hps & Hpd).
  assert (Hlen : Forall (fun l => length l = size_of (shape a0))
                   (map data arrs)).
  { apply Forall_map. apply Forall_forall. intros b Hb. simpl.
    rewrite <- (proj1 (Forall_forall _ _) Hsh b Hb).
    exact (proj1 (Forall_forall _ _) Hwf b Hb). }
  destruct (is_ok_result (np_stack promote (take j arrs))) as [p' Hp'].
  { apply np_stack_nonempty.
    - subst arrs. destruct j; [lia | discriminate].
    - intros a b Ha Hb.
      apply (subseteq_take j arrs) in Ha, Hb.
      rewrite (proj1 (Forall_forall _ _) Hsh a Ha),
              (proj1 (Forall_forall _ _) Hsh b Hb). reflexivity. }
  destruct (np_stack_Ok _ _ _ Hp') as (a1 & rest' & Ht & _ & Hps' & Hpd').
  assert (a1 = a0) as ->.
  { subst arrs. destruct j; [lia|]. simpl in Ht. congruence. }
  exists p'. unfold slice_last. rewrite (last_dim_snoc _ _ _ Hps).
  cbn [bind]. eexists. split; [exact Hp'|]. split; [reflexivity|].
  cbn [shape data]. rewrite Hps, leading_snoc, Hps', Hpd', Hpd. split.
  - rewrite length_take. reflexivity.
  - rewrite <- (length_map data arrs), (chunks_interleave _ _ Hlen).
    rewrite slice_columns by exact Hlen.
    rewrite map_take. reflexivity.
Qed.

End Slices.

(** ** More on the extraction and the display *)

Section Further.

Variable source : Type.
Variable sign : string -> result string.
Variable rasterio_open : string -> result source.
Variable index : source -> Q -> Q -> Z * Z.
Variable src_transform : source -> Affine.
Variable read : source -> nat -> Window -> nat * nat -> result (ndarray Z).
Variable promote : dtype -> dtype -> dtype.
Variable round32 : Q -> Q.
Variable item : Item.

Hypothesis read_shape : forall s i w sh a,
  read s i w sh = Ok a -> shape a = [sh.1; sh.2].
Hypothesis read_well_formed : forall s i w sh a,
  read s i w sh = Ok a -> well_formed a.
Hypothesis round32_monotone : forall x y : Q,
  (x <= y)%Q -> (round32 x <= round32 y)%Q.
Hypothesis round32_0 : (round32 0 == 0)%Q.
Hypothesis round32_1 : (round32 1 == 1)%Q.
Hypothesis round32_3000 : (round32 3000 == 3000)%Q.

Abbreviation pixel_window := (pixel_window index).
Abbreviation normalize := (normalize round32).
Abbreviation normalize_px := (normalize_px round32).
Abbreviation img_rgb := (img_rgb round32).
Abbreviation script :=
  (script sign rasterio_open index src_transform read promote round32
     item).
Abbreviation read_one := (read_one sign rasterio_open read item).
Abbreviation read_band :=
  (read_band sign rasterio_open index src_transform read promote item).
Abbreviation read_band_traced :=
  (read_band_traced sign rasterio_open index src_transform read promote
     item).

Lemma read_one_steps w band asset bh bsrc arr :
  assets item !! band = Some asset ->
  sign (href asset) = Ok bh ->
  rasterio_open bh = Ok bsrc ->
  read bsrc 1%nat w (256%nat, 256%nat) = Ok arr ->
  read_one w band = Ok arr.
Proof.
  intros H1 H2 H3 H4. unfold read_one, getitem.
  rewrite H1. cbn [bind]. rewrite H2. cbn [bind]. rewrite H3. exact H4.
Qed.

(** X4.  With no band selected [read_band] never returns an array:
    [np.stack] refuses the empty list, so once the reference is open and
    the window formed the call raises ValueError, and the run of the
    script ends there. *)
Theorem read_band_no_bands (asset_href : string) (bbox : BBox)
    (button : bool) :
  is_ok (read_band asset_href bbox []) = false /\
  (forall signed src w,
     sign asset_href = Ok signed ->
     rasterio_open signed = Ok src ->
     pixel_window src bbox = Ok w ->
     read_band asset_href bbox [] = Err ValueError) /\
  is_ok (script bbox [] button) = false.
Proof.
  assert (H : forall h, is_ok (read_band h bbox []) = false).
  { intros h. unfold read_band.
    destruct (sign h) as [signed|]; [|reflexivity]. cbn [bind].
    destruct (rasterio_open signed) as [src|]; [|reflexivity]. cbn [bind].
    destruct (pixel_window src bbox) as [w|]; reflexivity. }
  split; [apply H|]. split.
  - intros signed src w Hs Ho Hw. unfold read_band.
    rewrite Hs. cbn [bind]. rewrite Ho. cbn [bind]. rewrite Hw. reflexivity.
  - unfold script.
    destruct (getitem (assets item) "B04") as [b04|]; [|reflexivity].
    cbn [bind]. specialize (H (href b04)).
    destruct (read_band (href b04) bbox []); [discriminate | reflexivity].
Qed.

(** X5.  [read_band] returns an array exactly when the reference href can
    be signed and opened, no corner index is negative, at least one band
    is selected, and every selected band has an asset that can be signed,
    opened and read. *)
Theorem read_band_succeeds_iff (asset_href : string) (bbox : BBox)
    (bands : list string) :
  is_ok (read_band asset_href bbox bands) = true <->
  exists signed src w,
    sign asset_href = Ok signed /\
    rasterio_open signed = Ok src /\
    pixel_window src bbox = Ok w /\
    0 <= row_off w /\ 0 <= col_off w /\
    bands <> [] /\
    Forall
      (fun band =>
         exists asset bh bsrc arr,
           assets item !! band = Some asset /\
           sign (href asset) = Ok bh /\
           rasterio_open bh = Ok bsrc /\
           read bsrc 1%nat w (256%nat, 256%nat) = Ok arr)
      bands.
Proof.
  split.
  - intros Hok. destruct (is_ok_result _ Hok) as [[p t] Hrb].
    apply read_band_Ok in Hrb
      as (signed & src & w & arrs & Hs & Ho & Hw & Ha & Hp & _).
    exists signed, src, w. repeat (split; [assumption|]).
    assert (Hw' := Hw). unfold pixel_window in Hw'.
    destruct (index src (left bbox) (top bbox)) as [r0 c0].
    destruct (index src (right bbox) (bottom bbox)) as [r1 c1].
    apply from_slices_Ok in Hw'. cbn [fst snd] in Hw'.
    destruct Hw' as (? & ? & ? & ? & -> & -> & _).
    split; [assumption|]. split; [assumption|]. split.
    + intros ->. simpl in Ha. injection Ha as <-. discriminate.
    + apply Forall_forall. intros band Hb.
      apply list_elem_of_lookup in Hb as [k Hk].
      destruct (for_each_lookup _ _ _ _ _ Ha Hk) as (arr & _ & Hr).
      apply read_one_Ok in Hr as (asset & bh & bsrc & ? & ? & ? & ?).
      exists asset, bh, bsrc, arr. auto.
  - intros (signed & src & w & Hs & Ho & Hw & _ & _ & Hne & Hall).
    erewrite read_band_from_window by eassumption.
    destruct (for_each_total (read_one w) bands) as [arrs Ha].
    { eapply Forall_impl; [exact Hall|]. cbn beta.
      intros band (asset & bh & bsrc & arr & H1 & H2 & H3 & H4).
      rewrite (read_one_steps _ _ _ _ _ _ H1 H2 H3 H4). reflexivity. }
    rewrite Ha. cbn [bind].
    eapply stack_of_reads with (promote := promote) in Ha
      as (p & Hp & _); [|exact read_shape|exact Hne].
    rewrite Hp. reflexivity.
Qed.

Lemma further_stack asset_href bbox bands preview t :
  read_band asset_href bbox bands = Ok (preview, t) ->
  shape preview = [256; 256; length bands]%nat /\
  well_formed preview /\ (1 <= length bands)%nat.
Proof.
  intros H. eapply read_band_stack; [exact read_shape | | exact H].
  exact read_well_formed.
Qed.

(** X6.  The array [read_band] returns always has 256 rows, 256 columns
    and one band per selected band, at least one, with exactly
    256 * 256 * n elements, whatever the size of the window and of the
    source rasters. *)
Theorem read_band_shape (asset_href : string) (bbox : BBox)
    (bands : list string) :
  is_ok (read_band asset_href bbox bands) = true ->
  exists preview t,
    read_band asset_href bbox bands = Ok (preview, t) /\
    shape preview = [256; 256; length bands]%nat /\
    length (data preview) = (256 * 256 * length bands)%nat /\
    (1 <= length bands)%nat.
Proof.
  intros Hok. destruct (is_ok_result _ Hok) as [[p t] Hrb].
  destruct (further_stack _ _ _ _ _ Hrb) as (Hs & Hwf & Hn).
  exists p, t. split; [exact Hrb|]. split; [exact Hs|].
  split; [|exact Hn].
  unfold well_formed in Hwf. rewrite Hwf, Hs.
  unfold size_of. cbn [foldr]. rewrite Nat.mul_1_r, Nat.mul_assoc.
  reflexivity.
Qed.

Lemma from_slices_negative rows cols :
  rows.1 < 0 \/ rows.2 < 0 \/ cols.1 < 0 \/ cols.2 < 0 ->
  from_slices rows cols = Err WindowError.
Proof.
  destruct rows as [r0 r1], cols as [c0 c1]. cbn [fst snd].
  unfold from_slices. intros H.
  destruct (r0 <? 0) eqn:E1; [reflexivity|].
  destruct (r1 <? 0) eqn:E2; [reflexivity|].
  destruct (c0 <? 0) eqn:E3; [reflexivity|].
  destruct (c1 <? 0) eqn:E4; [reflexivity|].
  apply Z.ltb_ge in E1, E2, E3, E4. lia.
Qed.

(** X7.  When a corner of the box maps to a negative row or column (the
    box reaches north or west of the reference raster), [read_band]
    raises WindowError whatever the bands are, and apart from signing,
    opening and closing the reference it calls nothing: no band asset is
    looked up, signed, opened or read. *)
Theorem read_band_negative_index (asset_href : string) (bbox : BBox)
    (bands : list string) (signed : string) (src : source) :
  sign asset_href = Ok signed ->
  rasterio_open signed = Ok src ->
  (index src (left bbox) (top bbox)).1 < 0 \/
  (index src (left bbox) (top bbox)).2 < 0 \/
  (index src (right bbox) (bottom bbox)).1 < 0 \/
  (index src (right bbox) (bottom bbox)).2 < 0 ->
  read_band asset_href bbox bands = Err WindowError /\
  read_band_traced asset_href bbox bands
    = ([EvSign asset_href; EvOpen signed true; EvClose signed],
       Err WindowError).
Proof.
  intros Hs Ho Hneg.
  assert (Hw : pixel_window src bbox = Err WindowError).
  { unfold pixel_window.
    destruct (index src (left bbox) (top bbox)) as [r0 c0].
    destruct (index src (right bbox) (bottom bbox)) as [r1 c1].
    cbn [fst snd] in Hneg. apply from_slices_negative. cbn [fst snd]. lia. }
  split.
  - unfold read_band. rewrite Hs. cbn [bind]. rewrite Ho. cbn [bind].
    rewrite Hw. reflexivity.
  - unfold read_band_traced, traced_sign. rewrite Hs. cbn [tbind].
    unfold with_open. rewrite Ho, Hw. reflexivity.
Qed.

(** X8.  [normalize] keeps the order of pixel values: a larger raw value
    never gives a smaller display value; and inside [0, 3000] the
    clipping changes nothing, the display value is the float32 value
    divided by 3000. *)
Theorem normalize_px_monotone :
  (forall v v' : Z, v <= v' -> (normalize_px v <= normalize_px v')%Q) /\
  (forall v : Z, 0 <= v <= 3000 ->
     (normalize_px v == round32 (round32 (inject_Z v) / 3000))%Q).
Proof.
  split.
  - intros v v' Hv. unfold normalize_px. apply round32_monotone.
    assert (H : (round32 (inject_Z v) <= round32 (inject_Z v'))%Q)
      by (apply round32_monotone; rewrite <- Zle_Qle; exact Hv).
    assert (Hc : (np_clip (round32 (inject_Z v)) 0 3000
                  <= np_clip (round32 (inject_Z v')) 0 3000)%Q).
    { unfold np_clip. apply Q.min_le_compat_r, Q.max_le_compat_r, H. }
    apply Qmult_le_compat_r; [exact Hc | discriminate].
  - intros v [Hlo Hhi]. unfold normalize_px.
    assert (H0 : (0 <= round32 (inject_Z v))%Q).
    { rewrite <- round32_0. apply round32_monotone.
      change 0%Q with (inject_Z 0). rewrite <- Zle_Qle. exact Hlo. }
    assert (H1 : (round32 (inject_Z v) <= 3000)%Q).
    { rewrite <- round32_3000. apply round32_monotone.
      change 3000%Q with (inject_Z 3000). rewrite <- Zle_Qle. exact Hhi. }
    apply Qle_antisym; apply round32_monotone; unfold np_clip;
      rewrite Q.max_l, Q.min_l by assumption; apply Qle_refl.
Qed.

Lemma normalize_data (a b : ndarray Z) :
  shape a = shape b -> data a = data b -> normalize a = normalize b.
Proof. intros Hs Hd. unfold normalize. rewrite Hs, Hd. reflexivity. Qed.

Lemma normalize_well_formed (a : ndarray Z) :
  well_formed a -> well_formed (normalize a).
Proof.
  unfold well_formed, normalize. cbn [data shape].
  rewrite length_map. auto.
Qed.

Lemma normalize_range (a : ndarray Z) :
  Forall (fun q => 0 <= q <= 1)%Q (data (normalize a)).
Proof.
  unfold normalize. cbn [data]. apply Forall_map, Forall_forall.
  intros v _. apply normalize_px_bounds; assumption.
Qed.

(** What [img_rgb] computes on a 256 x 256 x n array. *)
Lemma img_rgb_cases (preview : ndarray Z) n :
  shape preview = [256; 256; n]%nat -> well_formed preview ->
  (1 <= n)%nat ->
  exists a,
    (if (3 <=? n)%nat then slice_last 3 preview
     else select_last 0 preview) = Ok a /\
    img_rgb preview = Ok (normalize a) /\
    well_formed a /\
    shape a = (if (3 <=? n)%nat then [256; 256; 3] else [256; 256])%nat.
Proof.
  intros Hshape Hwf Hn.
  assert (Hs : shape preview = [256; 256]%nat ++ [n]) by exact Hshape.
  pose proof (last_dim_snoc _ _ _ Hs) as Hlast.
  unfold img_rgb. rewrite Hlast. cbn [bind].
  destruct (3 <=? n)%nat eqn:E.
  - apply Nat.leb_le in E.
    destruct (is_ok_result (slice_last 3 preview)) as [a Ha].
    { unfold slice_last. rewrite Hlast. reflexivity. }
    exists a. rewrite Ha. split; [reflexivity|]. split; [reflexivity|].
    destruct (slice_last_well_formed _ _ _ _ _ Hs Hwf Ha) as [Hwa Hsa].
    split; [exact Hwa|]. rewrite Hsa, (Nat.min_l 3 n E). reflexivity.
  - apply Nat.leb_gt in E.
    destruct (is_ok_result (select_last 0 preview)) as [a Ha].
    { unfold select_last. rewrite Hlast. cbn [bind].
      replace (0 <? n)%nat with true
        by (symmetry; apply Nat.ltb_lt; lia).
      reflexivity. }
    exists a. rewrite Ha. split; [reflexivity|]. split; [reflexivity|].
    exact (select_last_well_formed _ _ _ _ _ Hs Hwf Ha).
Qed.

(** X9.  The image shown for a preview that loaded is a well-formed
    float32 array, 256 x 256 with one or two bands selected and
    256 x 256 x 3 with three or more, all of whose values lie in
    [0, 1]. *)
Theorem img_rgb_range (asset_href : string) (bbox : BBox)
    (bands : list string) :
  is_ok (read_band asset_href bbox bands) = true ->
  exists preview t img,
    read_band asset_href bbox bands = Ok (preview, t) /\
    img_rgb preview = Ok img /\
    arr_dtype img = float32 /\
    shape img = (if (3 <=? length bands)%nat
                 then [256; 256; 3] else [256; 256])%nat /\
    well_formed img /\
    Forall (fun q => 0 <= q <= 1)%Q (data img).
Proof.
  intros Hok. destruct (is_ok_result _ Hok) as [[p t] Hrb].
  destruct (further_stack _ _ _ _ _ Hrb) as (Hs & Hwf & Hn).
  destruct (img_rgb_cases p _ Hs Hwf Hn) as (a & _ & Himg & Hwa & Hsa).
  exists p, t, (normalize a). split; [exact Hrb|]. split; [exact Himg|].
  split; [reflexivity|]. split; [exact Hsa|].
  split; [apply normalize_well_formed, Hwa | apply normalize_range].
Qed.

Lemma for_each_take {X Y : Type} (f : X -> result Y) j xs ys :
  for_each f xs = Ok ys -> for_each f (take j xs) = Ok (take j ys).
Proof.
  revert j ys; induction xs as [|x xs IH]; intros j ys H.
  - injection H as <-. destruct j; reflexivity.
  - cbn [for_each] in H. destruct (f x) as [y|] eqn:Hx; [|discriminate].
    cbn [bind] in H.
    destruct (for_each f xs) as [ys'|]; [|discriminate].
    injection H as <-. destruct j as [|j]; [reflexivity|].
    cbn [take for_each]. rewrite Hx. cbn [bind].
    rewrite (IH j ys' eq_refl). reflexivity.
Qed.

(** X10.  The image depends on the first three selected bands only, and
    with one or two bands selected on the first alone: the display is the
    one the same call would give with just those bands selected. *)
Theorem img_rgb_shown_bands (asset_href : string) (bbox : BBox)
    (bands : list string) :
  is_ok (read_band asset_href bbox bands) = true ->
  exists preview preview' t,
    read_band asset_href bbox bands = Ok (preview, t) /\
    read_band asset_href bbox
      (take (if (3 <=? length bands)%nat then 3 else 1) bands)
      = Ok (preview', t) /\
    img_rgb preview = img_rgb preview' /\
    is_ok (img_rgb preview) = true.
Proof.
  intros Hok. destruct (is_ok_result _ Hok) as [[p t] Hrb].
  destruct (further_stack _ _ _ _ _ Hrb) as (Hs & Hwf & Hn).
  assert (Hrb0 := Hrb).
  apply read_band_Ok in Hrb0
    as (signed & src & w & arrs & Hsg & Ho & Hw & Ha & Hp & ->).
  set (j := if (3 <=? length bands)%nat then 3%nat else 1%nat).
  assert (Hj1 : (1 <= j)%nat) by (unfold j; destruct (3 <=? _)%nat; lia).
  assert (Hjn : (j <= length bands)%nat).
  { unfold j. destruct (3 <=? length bands)%nat eqn:E; [|lia].
    apply Nat.leb_le in E. exact E. }
  assert (Hwfs : Forall well_formed arrs).
  { apply Forall_forall. intros a Hin.
    apply list_elem_of_lookup in Hin as [i Hi].
    destruct (Forall2_lookup_r _ _ _ _ _
                (for_each_Forall2 _ _ _ Ha) Hi) as (b & _ & Hb).
    eapply read_one_well_formed; [exact read_well_formed | exact Hb]. }
  destruct (slice_stack promote arrs p j Hp Hwfs Hj1)
    as (p' & q & Hp' & Hq & Hsq & Hdq).
  assert (Hrb' : read_band asset_href bbox (take j bands)
                 = Ok (p', src_transform src)).
  { erewrite read_band_from_window by eassumption.
    rewrite (for_each_take _ j _ _ Ha). cbn [bind]. rewrite Hp'.
    reflexivity. }
  assert (Hlen : length (take j bands) = j)
    by (rewrite length_take; lia).
  destruct (further_stack _ _ _ _ _ Hrb') as (Hs' & Hwf' & Hn').
  rewrite Hlen in Hs'.
  destruct (img_rgb_cases p _ Hs Hwf Hn) as (a & Hsel & Himg & _ & _).
  destruct (img_rgb_cases p' _ Hs' Hwf' Hj1) as (a' & Hsel' & Himg' & _ & _).
  exists p, p', (src_transform src).
  split; [exact Hrb|]. split; [exact Hrb'|].
  rewrite Himg, Himg'. split; [|reflexivity]. f_equal.
  assert (Hsp : shape p = [256; 256]%nat ++ [length bands]) by exact Hs.
  assert (Hsp' : shape p' = [256; 256]%nat ++ [j]) by exact Hs'.
  unfold j in *. destruct (3 <=? length bands)%nat eqn:E.
  - (* three or more: the first three planes *)
    rewrite Hq in Hsel. injection Hsel as <-.
    change (3 <=? 3)%nat with true in Hsel'.
    destruct (slice_last_well_formed _ _ _ _ _ Hsp' Hwf' Hsel')
      as [_ Hsa'].
    apply normalize_data; [rewrite Hsq, Hsa', Hs'; reflexivity|].
    rewrite Hdq. unfold slice_last in Hsel'.
    rewrite (last_dim_snoc _ _ _ Hsp') in Hsel'. cbn [bind] in Hsel'.
    injection Hsel' as <-. cbn [data]. rewrite Hsp', leading_snoc.
    unfold well_formed in Hwf'. rewrite Hsp', size_of_snoc in Hwf'.
    rewrite (slice_full 3 3) by (auto using chunks_Forall).
    symmetry. apply concat_chunks, Hwf'.
  - (* one or two: the first plane *)
    change (3 <=? 1)%nat with false in Hsel'.
    destruct arrs as [|a0 arrs0].
    { pose proof (for_each_length _ _ _ Ha) as HL. simpl in HL. lia. }
    destruct (select_stack promote _ _ 0%nat a0 Hp Hwfs eq_refl)
      as (pl & Hpl & Hpls & Hpld).
    destruct (select_stack promote _ _ 0%nat a0 Hp'
                (Forall_take _ 1%nat _ Hwfs) eq_refl)
      as (pl' & Hpl' & Hpls' & Hpld').
    rewrite Hpl in Hsel. injection Hsel as <-.
    rewrite Hpl' in Hsel'. injection Hsel' as <-.
    apply normalize_data; congruence.
Qed.

(** The file the download handler leaves for a rows x columns x bands
    array. *)
Lemma export_geotiff_file (preview : ndarray Z) (h w n : nat) (t : Affine) :
  shape preview = [h; w; n] -> well_formed preview ->
  (0 < h)%nat -> (0 < w)%nat -> (0 < n)%nat ->
  exists tif,
    export_geotiff preview t = Ok tif /\
    g_height tif = h /\ g_width tif = w /\ g_count tif = n /\
    g_dtype tif = arr_dtype preview /\
    g_crs tif = "EPSG:4326"%string /\
    g_transform tif = t /\
    reopen tif = (preview, t).
Proof.
  intros Hs Hwf Hh Hw Hn.
  unfold export_geotiff, shape_at. rewrite Hs.
  cbn [lookup list_lookup bind]. unfold open_w.
  replace ((h =? 0)%nat || (w =? 0)%nat || (n =? 0)%nat) with false.
  2:{ symmetry. rewrite !orb_false_iff, !Nat.eqb_neq. lia. }
  cbn [bind].
  rewrite (write_planes_planes preview h w n Hs)
    by (rewrite ?length_replicate; lia).
  eexists. split; [reflexivity|].
  cbn [g_height g_width g_count g_dtype g_crs g_transform].
  repeat (split; [reflexivity|]).
  unfold reopen.
  cbn [g_height g_width g_count g_dtype g_transform g_planes].
  rewrite take_0. cbn [app].
  f_equal. etransitivity; [|symmetry; apply ndarray_eta].
  rewrite Hs. f_equal.
  replace (h * w)%nat with (size_of [h; w]) by (simpl; lia).
  exact (stack_planes preview [h; w] n Hs Hwf).
Qed.

End Further.

(** ** The further theorems at work on the concrete world *)

Ltac demo_world :=
  first [ exact demo_read_shape
        | exact demo_read_well_formed
        | exact (fun (x y : Q) (H : (x <= y)%Q) => H)
        | vm_compute; reflexivity ].

Lemma read_band_calls_witness :
  length (opens (demo_traced_fine "fine/B04.tif" Demo.bbox
                   ["B08"; "B04"]%string).1) = 3%nat /\
  opens (demo_traced_fine "fine/B04.tif" Demo.bbox ["B08"; "B04"]%string).1
    = ["fine/B04.tif?sig"; "fine/B08.tif?sig"; "fine/B04.tif?sig"]%string.
Proof.
  destruct (read_band_calls Demo.dataset Demo.sign Demo.rasterio_open
              Demo.index Demo.ds_transform Demo.read Demo.promote
              Demo.item_fine "fine/B04.tif" Demo.bbox
              ["B08"; "B04"]%string)
    as (signed & src & w & calls & _ & _ & _ & _ & _ & _ & _ & _ & Hlen);
    [demo_world|].
  split; [exact Hlen | vm_compute; reflexivity].
Defined.

Lemma read_band_calls_stop_witness :
  exists calls,
    length calls = 1%nat /\
    demo_traced_coarse "coarse/B04.tif" Demo.bbox
      ["B04"; "B08"; "B03"]%string
      = (EvSign "coarse/B04.tif" :: EvOpen "coarse/B04.tif?sig" true
           :: flat_map (band_calls (mk_window 22 411 1 0)) calls
           ++ [EvClose "coarse/B04.tif?sig"],
         Err (KeyError "B08")).
Proof.
  destruct (read_band_calls_stop Demo.dataset Demo.sign Demo.rasterio_open
              Demo.index Demo.ds_transform Demo.read Demo.promote
              Demo.item_coarse "coarse/B04.tif" Demo.bbox
              ["B04"%string] ["B03"%string] "B08"%string
              "coarse/B04.tif?sig"%string Demo.coarse_b04
              (mk_window 22 411 1 0))
    as (calls & Hcalls & Hlog).
  - reflexivity.
  - demo_world.
  - demo_world.
  - repeat constructor; demo_world.
  - demo_world.
  - exists calls. split; [|exact Hlog].
    symmetry. exact (Forall2_length _ _ _ Hcalls).
Defined.

Lemma read_band_no_bands_witness :
  is_ok (Demo.read_band_fine "fine/B04.tif" Demo.bbox []) = false /\
  Demo.read_band_fine "fine/B04.tif" Demo.bbox [] = Err ValueError.
Proof.
  destruct (read_band_no_bands Demo.dataset Demo.sign Demo.rasterio_open
              Demo.index Demo.ds_transform Demo.read Demo.promote
              Demo.round32 Demo.item_fine "fine/B04.tif" Demo.bbox true)
    as (Hnone & Herr & _).
  split; [exact Hnone|].
  apply (Herr "fine/B04.tif?sig"%string Demo.fine_b04
           (mk_window 2274 41121 40 40)); demo_world.
Defined.

Lemma read_band_succeeds_iff_witness :
  exists signed src w,
    Demo.sign "fine/B04.tif" = Ok signed /\
    Demo.rasterio_open signed = Ok src /\
    pixel_window Demo.index src Demo.bbox = Ok w /\
    0 <= row_off w /\ 0 <= col_off w /\
    ["B08"; "B04"]%string <> [] /\
    Forall
      (fun band =>
         exists asset bh bsrc arr,
           assets Demo.item_fine !! band = Some asset /\
           Demo.sign (href asset) = Ok bh /\
           Demo.rasterio_open bh = Ok bsrc /\
           Demo.read bsrc 1%nat w (256%nat, 256%nat) = Ok arr)
      ["B08"; "B04"]%string.
Proof.
  apply (proj1 (read_band_succeeds_iff Demo.dataset Demo.sign
                  Demo.rasterio_open Demo.index Demo.ds_transform
                  Demo.read Demo.promote Demo.item_fine demo_read_shape
                  "fine/B04.tif" Demo.bbox ["B08"; "B04"]%string)).
  demo_world.
Defined.

Lemma read_band_shape_witness :
  exists preview t,
    Demo.read_band_fine "fine/B04.tif" Demo.bbox ["B08"; "B04"]%string
      = Ok (preview, t) /\
    shape preview = [256; 256; 2]%nat /\
    length (data preview) = (256 * 256 * 2)%nat /\
    (1 <= 2)%nat.
Proof.
  apply (read_band_shape Demo.dataset Demo.sign Demo.rasterio_open
           Demo.index Demo.ds_transform Demo.read Demo.promote
           Demo.item_fine demo_read_shape demo_read_well_formed
           "fine/B04.tif" Demo.bbox ["B08"; "B04"]%string).
  demo_world.
Defined.

Lemma read_band_negative_index_witness :
  Demo.read_band_fine "fine/B04.tif" demo_bbox_west ["B04"%string]
    = Err WindowError /\
  demo_traced_fine "fine/B04.tif" demo_bbox_west ["B04"%string]
    = ([EvSign "fine/B04.tif"; EvOpen "fine/B04.tif?sig" true;
        EvClose "fine/B04.tif?sig"], Err WindowError).
Proof.
  apply (read_band_negative_index Demo.dataset Demo.sign
           Demo.rasterio_open Demo.index Demo.ds_transform Demo.read
           Demo.promote Demo.item_fine "fine/B04.tif" demo_bbox_west
           ["B04"%string] "fine/B04.tif?sig"%string Demo.fine_b04).
  - reflexivity.
  - demo_world.
  - right. left. vm_compute. reflexivity.
Defined.

Lemma normalize_px_monotone_witness :
  (normalize_px Demo.round32 100 <= normalize_px Demo.round32 2000)%Q /\
  (normalize_px Demo.round32 1500
   == Demo.round32 (Demo.round32 (inject_Z 1500) / 3000))%Q.
Proof.
  destruct (normalize_px_monotone Demo.round32) as [Hmono Hin];
    [demo_world..|].
  split; [apply Hmono | apply Hin]; lia.
Defined.

Lemma img_rgb_range_witness :
  exists preview t img,
    Demo.read_band_fine "fine/B04.tif" Demo.bbox
      ["B04"; "B03"; "B02"]%string = Ok (preview, t) /\
    img_rgb Demo.round32 preview = Ok img /\
    arr_dtype img = float32 /\
    shape img = [256; 256; 3]%nat /\
    well_formed img /\
    Forall (fun q => 0 <= q <= 1)%Q (data img).
Proof.
  apply (img_rgb_range Demo.dataset Demo.sign Demo.rasterio_open
           Demo.index Demo.ds_transform Demo.read Demo.promote
           Demo.round32 Demo.item_fine demo_read_shape
           demo_read_well_formed);
    demo_world.
Defined.

Lemma img_rgb_shown_bands_witness :
  exists preview preview' t,
    Demo.read_band_fine "fine/B04.tif" Demo.bbox
      ["B04"; "B03"; "B02"; "B08"]%string = Ok (preview, t) /\
    Demo.read_band_fine "fine/B04.tif" Demo.bbox
      ["B04"; "B03"; "B02"]%string = Ok (preview', t) /\
    img_rgb Demo.round32 preview = img_rgb Demo.round32 preview' /\
    is_ok (img_rgb Demo.round32 preview) = true.
Proof.
  apply (img_rgb_shown_bands Demo.dataset Demo.sign Demo.rasterio_open
           Demo.index Demo.ds_transform Demo.read Demo.promote
           Demo.round32 Demo.item_fine demo_read_shape
           demo_read_well_formed
           "fine/B04.tif" Demo.bbox ["B04"; "B03"; "B02"; "B08"]%string).
  demo_world.
Defined.

(** ** A box outside the raster *)

Section Coverage.

Variable source : Type.
Variable sign : string -> result string.
Variable rasterio_open : string -> result source.
Variable index : source -> Q -> Q -> Z * Z.
Variable src_transform : source -> Affine.
Variable src_height : source -> Z.
Variable src_width : source -> Z.
Variable read : source -> nat -> Window -> nat * nat -> result (ndarray Z).
Variable promote : dtype -> dtype -> dtype.
Variable item : Item.

(** What the raster library does with a window that starts beyond the
    raster: the read raises. *)
Hypothesis read_range : forall s i w sh,
  src_height s <= row_off w \/ src_width s <= col_off w ->
  is_ok (read s i w sh) = false.

Abbreviation pixel_window := (pixel_window index).
Abbreviation read_one := (read_one sign rasterio_open read item).
Abbreviation read_band :=
  (read_band sign rasterio_open index src_transform read promote item).

(** No band can be read through a window that starts beyond every band
    raster. *)
Lemma read_one_beyond (w : Window) (rows cols : Z) (band : string) :
  (forall b asset bh bsrc,
     assets item !! b = Some asset ->
     sign (href asset) = Ok bh ->
     rasterio_open bh = Ok bsrc ->
     src_height bsrc <= rows /\ src_width bsrc <= cols) ->
  rows <= row_off w \/ cols <= col_off w ->
  is_ok (read_one w band) = false.
Proof.
  intros Hgrid Hw. unfold read_one, getitem.
  destruct (assets item !! band) as [asset|] eqn:Ha; [|reflexivity].
  cbn [bind].
  destruct (sign (href asset)) as [bh|] eqn:Hs; [|reflexivity].
  cbn [bind].
  destruct (rasterio_open bh) as [bsrc|] eqn:Ho; [|reflexivity].
  cbn [bind]. apply read_range.
  destruct (Hgrid band asset bh bsrc Ha Hs Ho). lia.
Qed.

(** C3, as the code has it.  When the box lies entirely outside the
    coverage of the reference raster, and the band rasters are no larger
    than it, [read_band] fails and returns no array: with WindowError
    when a corner index is negative; otherwise the window is formed, it
    starts beyond the raster, its width and height are the distances
    between the corner indices (being outside does not make them zero),
    and no band can be read through it.  [read_band] itself never looks
    at the extent of the window. *)
Theorem read_band_outside_coverage (asset_href : string) (bbox : BBox)
    (bands : list string) (signed : string) (src : source) :
  let start := index src (left bbox) (top bbox) in
  let stop := index src (right bbox) (bottom bbox) in
  sign asset_href = Ok signed ->
  rasterio_open signed = Ok src ->
  (forall b asset bh bsrc,
     assets item !! b = Some asset ->
     sign (href asset) = Ok bh ->
     rasterio_open bh = Ok bsrc ->
     src_height bsrc <= src_height src /\ src_width bsrc <= src_width src) ->
  outside_coverage (src_height src) (src_width src) start stop ->
  is_ok (read_band asset_href bbox bands) = false /\
  (start.1 < 0 \/ start.2 < 0 \/ stop.1 < 0 \/ stop.2 < 0 ->
   read_band asset_href bbox bands = Err WindowError) /\
  (forall w,
     pixel_window src bbox = Ok w ->
     (src_height src <= row_off w \/ src_width src <= col_off w) /\
     width w = Z.abs (stop.2 - start.2) /\
     height w = Z.abs (stop.1 - start.1) /\
     forall band, is_ok (read_one w band) = false).
Proof.
  intros start stop Hs Ho Hgrid Hout.
  assert (Hwin : forall w,
            pixel_window src bbox = Ok w ->
            (src_height src <= row_off w \/ src_width src <= col_off w) /\
            width w = Z.abs (stop.2 - start.2) /\
            height w = Z.abs (stop.1 - start.1) /\
            forall band, is_ok (read_one w band) = false).
  { intros w Hw.
    assert (Hb : (src_height src <= row_off w \/ src_width src <= col_off w)
                 /\ width w = Z.abs (stop.2 - start.2)
                 /\ height w = Z.abs (stop.1 - start.1)).
    { unfold pixel_window in Hw. subst start stop.
      unfold outside_coverage in Hout.
      destruct (index src (left bbox) (top bbox)) as [r0 c0].
      destruct (index src (right bbox) (bottom bbox)) as [r1 c1].
      apply from_slices_Ok in Hw. cbn [fst snd] in *.
      destruct Hw as (? & ? & ? & ? & -> & -> & -> & ->). lia. }
    destruct Hb as (Hb & Hwd & Hht). repeat split; try assumption.
    intros band. eapply read_one_beyond; [exact Hgrid | exact Hb]. }
  split; [|split; [|exact Hwin]].
  - unfold read_band. rewrite Hs. cbn [bind]. rewrite Ho. cbn [bind].
    destruct (pixel_window src bbox) as [w|] eqn:Hw; [|reflexivity].
    cbn [bind]. destruct (Hwin w eq_refl) as (_ & _ & _ & Hread).
    destruct bands as [|band bands']; [reflexivity|].
    cbn [for_each]. specialize (Hread band).
    destruct (read_one w band); [discriminate | reflexivity].
  - intros Hneg. unfold read_band. rewrite Hs. cbn [bind]. rewrite Ho.
    cbn [bind]. unfold pixel_window. subst start stop.
    destruct (index src (left bbox) (top bbox)) as [r0 c0].
    destruct (index src (right bbox) (bottom bbox)) as [r1 c1].
    cbn [fst snd] in Hneg. rewrite from_slices_negative; [reflexivity|].
    cbn [fst snd]. lia.
Qed.

End Coverage.

Lemma demo_raster_size h d :
  Demo.rasterio_open h = Ok d ->
  Demo.ds_height d <= Demo.ds_height Demo.fine_b04 /\
  Demo.ds_width d <= Demo.ds_width Demo.fine_b04.
Proof.
  unfold Demo.rasterio_open.
  destruct (Demo.files !! h) as [d'|] eqn:Hf; [|discriminate].
  intros [= <-]. apply elem_of_list_to_map_2 in Hf.
  repeat (apply elem_of_cons in Hf as [[= -> ->]|Hf];
          [vm_compute; split; discriminate|]).
  inversion Hf.
Qed.

(** East of the rasters the box is outside their coverage, and its window
    is 40 x 40, not empty, against C3. *)
Lemma outside_window_not_empty :
  ~ (outside_coverage (Demo.ds_height Demo.fine_b04)
       (Demo.ds_width Demo.fine_b04)
       (Demo.index Demo.fine_b04 (left demo_bbox_east)
          (top demo_bbox_east))
       (Demo.index Demo.fine_b04 (right demo_bbox_east)
          (bottom demo_bbox_east)) ->
     exists w,
       pixel_window Demo.index Demo.fine_b04 demo_bbox_east = Ok w /\
       (width w = 0 \/ height w = 0) /\
       is_ok (Demo.read_band_fine "fine/B04.tif" demo_bbox_east
                ["B04"; "B03"; "B02"]%string) = false).
Proof.
  intros H. destruct H as (w & Hw & Hzero & _).
  - right. right. right. vm_compute. split; discriminate.
  - vm_compute in Hw. injection Hw as <-.
    destruct Hzero as [Hz|Hz]; discriminate Hz.
Qed.

Lemma read_band_outside_coverage_witness :
  is_ok (Demo.read_band_fine "fine/B04.tif" demo_bbox_east
           ["B04"; "B03"; "B02"]%string) = false /\
  (forall w,
     pixel_window Demo.index Demo.fine_b04 demo_bbox_east = Ok w ->
     (Demo.ds_height Demo.fine_b04 <= row_off w \/
      Demo.ds_width Demo.fine_b04 <= col_off w) /\
     width w = 40 /\ height w = 40) /\
  Demo.read_band_fine "fine/B04.tif" demo_bbox_west
    ["B04"; "B03"; "B02"]%string = Err WindowError.
Proof.
  assert (Hgrid : forall b asset bh bsrc,
            assets Demo.item_fine !! b = Some asset ->
            Demo.sign (href asset) = Ok bh ->
            Demo.rasterio_open bh = Ok bsrc ->
            Demo.ds_height bsrc <= Demo.ds_height Demo.fine_b04 /\
            Demo.ds_width bsrc <= Demo.ds_width Demo.fine_b04).
  { intros b asset bh bsrc _ _ Ho. exact (demo_raster_size bh bsrc Ho). }
  destruct (read_band_outside_coverage Demo.dataset Demo.sign
              Demo.rasterio_open Demo.index Demo.ds_transform
              Demo.ds_height Demo.ds_width Demo.read Demo.promote
              Demo.item_fine demo_read_range
              "fine/B04.tif" demo_bbox_east ["B04"; "B03"; "B02"]%string
              "fine/B04.tif?sig"%string Demo.fine_b04)
    as (Hfail & _ & Hwin).
  - reflexivity.
  - vm_compute; reflexivity.
  - exact Hgrid.
  - right. right. right. vm_compute. split; discriminate.
  - destruct (read_band_outside_coverage Demo.dataset Demo.sign
                Demo.rasterio_open Demo.index Demo.ds_transform
                Demo.ds_height Demo.ds_width Demo.read Demo.promote
                Demo.item_fine demo_read_range
                "fine/B04.tif" demo_bbox_west
                ["B04"; "B03"; "B02"]%string
                "fine/B04.tif?sig"%string Demo.fine_b04)
      as (_ & Hneg & _).
    + reflexivity.
    + vm_compute; reflexivity.
    + exact Hgrid.
    + right. right. left. vm_compute. split; reflexivity.
    + split; [exact Hfail|]. split.
      * intros w Hw. destruct (Hwin w Hw) as (Hb & Hwd & Hht & _).
        split; [exact Hb|]. split; [exact Hwd | exact Hht].
      * apply Hneg. right. left. vm_compute. reflexivity.
Defined.

(** ** The run, the download and the box *)

Section Run.

Variable source : Type.
Variable sign : string -> result string.
Variable rasterio_open : string -> result source.
Variable index : source -> Q -> Q -> Z * Z.
Variable src_transform : source -> Affine.
Variable read : source -> nat -> Window -> nat * nat -> result (ndarray Z).
Variable promote : dtype -> dtype -> dtype.
Variable round32 : Q -> Q.
Variable item : Item.
Variable tmp_name : result string.
Variable can_create : string -> result unit.
Variable can_write : string -> nat -> result unit.

Hypothesis read_shape : forall s i w sh a,
  read s i w sh = Ok a -> shape a = [sh.1; sh.2].
Hypothesis read_well_formed : forall s i w sh a,
  read s i w sh = Ok a -> well_formed a.

Abbreviation script :=
  (script sign rasterio_open index src_transform read promote round32
     item).
Abbreviation read_band :=
  (read_band sign rasterio_open index src_transform read promote item).
Abbreviation write_planes_io := (write_planes_io can_write).
Abbreviation download_handler :=
  (download_handler tmp_name can_create can_write).

(** X11.  A run of the script can succeed only when the item has a
    ["B04"] asset and [read_band] on its href succeeds.  Without that
    asset the run raises KeyError "B04" whatever bands are selected, also
    when B04 is not among them; and an exception of [read_band] ends the
    run as it is. *)
Theorem script_needs_reference (bbox : BBox) (bands : list string)
    (button : bool) :
  (is_ok (script bbox bands button) = true ->
   exists b04,
     assets item !! "B04"%string = Some b04 /\
     is_ok (read_band (href b04) bbox bands) = true) /\
  (assets item !! "B04"%string = None ->
   script bbox bands button = Err (KeyError "B04")) /\
  (forall b04 e,
     assets item !! "B04"%string = Some b04 ->
     read_band (href b04) bbox bands = Err e ->
     script bbox bands button = Err e).
Proof.
  unfold script, getitem. split; [|split].
  - destruct (assets item !! "B04"%string) as [b04|]; [|discriminate].
    cbn [bind]. intros H. exists b04. split; [reflexivity|].
    destruct (read_band (href b04) bbox bands); [reflexivity|].
    discriminate H.
  - intros ->. reflexivity.
  - intros b04 e -> Hrb. cbn [bind]. rewrite Hrb. reflexivity.
Qed.

(** With the file system in the way the loop writes what it writes
    without it, or fails. *)
Lemma write_planes_io_refines path preview todo : forall dst k tif,
  write_planes_io path preview dst k todo = Ok tif ->
  write_planes preview dst k todo = Ok tif.
Proof.
  induction todo as [|todo IH]; intros dst k tif H; [exact H|].
  simpl in H |- *.
  destruct (select_last k preview) as [plane|]; [|discriminate].
  cbn [bind] in *.
  destruct (can_write path (k + 1)%nat); [|discriminate]. cbn [bind] in H.
  destruct (dst_write dst plane (k + 1)) as [dst'|]; [|discriminate].
  cbn [bind] in *. apply IH, H.
Qed.

Lemma write_planes_io_through path preview todo : forall dst k,
  (forall i, can_write path i = Ok tt) ->
  write_planes_io path preview dst k todo
    = write_planes preview dst k todo.
Proof.
  induction todo as [|todo IH]; intros dst k Hw; [reflexivity|].
  simpl. destruct (select_last k preview) as [plane|]; [|reflexivity].
  cbn [bind]. rewrite Hw. cbn [bind].
  destruct (dst_write dst plane (k + 1)) as [dst'|]; [|reflexivity].
  cbn [bind]. apply IH, Hw.
Qed.

Lemma download_handler_refines preview t tif :
  download_handler preview t = Ok tif ->
  export_geotiff preview t = Ok tif.
Proof.
  unfold download_handler, export_geotiff.
  destruct tmp_name as [path|]; [|discriminate]. cbn [bind].
  destruct (shape_at preview 0) as [h|]; [|discriminate]. cbn [bind].
  destruct (shape_at preview 1) as [w|]; [|discriminate]. cbn [bind].
  destruct (shape_at preview 2) as [n|]; [|discriminate]. cbn [bind].
  destruct (can_create path); [|discriminate]. cbn [bind].
  destruct (open_w _ h w n _ _ t) as [dst|]; [|discriminate]. cbn [bind].
  apply write_planes_io_refines.
Qed.

(** X12.  The download handler on a preview that loaded.  Whenever it
    returns, the file it leaves has 256 rows, 256 columns, one band per
    selected band, the dtype of the raw preview, EPSG:4326 and the
    transform [read_band] returned (the reference raster's), and
    re-opening it gives the raw preview back, not the normalised image.
    It returns when the temporary file and the raster can be created and
    every band written; when creating either fails it raises that
    error. *)
Theorem download_handler_file (asset_href : string) (bbox : BBox)
    (bands : list string) :
  is_ok (read_band asset_href bbox bands) = true ->
  exists preview t,
    read_band asset_href bbox bands = Ok (preview, t) /\
    (forall tif,
       download_handler preview t = Ok tif ->
       g_height tif = 256%nat /\ g_width tif = 256%nat /\
       g_count tif = length bands /\
       g_dtype tif = arr_dtype preview /\
       g_crs tif = "EPSG:4326"%string /\
       g_transform tif = t /\
       reopen tif = (preview, t)) /\
    (forall path,
       tmp_name = Ok path ->
       can_create path = Ok tt ->
       (forall i, can_write path i = Ok tt) ->
       is_ok (download_handler preview t) = true) /\
    (forall e, tmp_name = Err e -> download_handler preview t = Err e) /\
    (forall path e,
       tmp_name = Ok path ->
       can_create path = Err e ->
       download_handler preview t = Err e).
Proof.
  intros Hok. destruct (is_ok_result _ Hok) as [[p t] Hrb].
  assert (Hst : shape p = [256; 256; length bands]%nat /\
                well_formed p /\ (1 <= length bands)%nat).
  { eapply read_band_stack; [exact read_shape | | exact Hrb].
    exact read_well_formed. }
  destruct Hst as (Hs & Hwf & Hn).
  destruct (export_geotiff_file p _ _ _ t Hs Hwf)
    as (tif0 & Hexp & H1 & H2 & H3 & H4 & H5 & H6 & H7); [lia..|].
  exists p, t. split; [exact Hrb|]. split; [|split; [|split]].
  - intros tif Htif. apply download_handler_refines in Htif.
    rewrite Hexp in Htif. injection Htif as <-. auto 10.
  - intros path Hp Hc Hw. unfold download_handler, shape_at.
    rewrite Hp, Hs. cbn [bind lookup list_lookup]. rewrite Hc. cbn [bind].
    unfold export_geotiff, shape_at in Hexp. rewrite Hs in Hexp.
    cbn [bind lookup list_lookup] in Hexp.
    destruct (open_w _ _ _ _ _ _ t) as [dst|]; [|discriminate].
    cbn [bind] in *. rewrite (write_planes_io_through _ _ _ _ _ Hw), Hexp.
    reflexivity.
  - intros e He. unfold download_handler. rewrite He. reflexivity.
  - intros path e Hp Hc. unfold download_handler, shape_at.
    rewrite Hp, Hs. cbn [bind lookup list_lookup]. rewrite Hc.
    reflexivity.
Qed.

End Run.

Section Box.

Variable round64 : Q -> Q.
Variable eps : Q.

(** Rounding to float64 keeps the order and moves a number by at most
    the relative error [eps] (2^-53 for round to nearest). *)
Hypothesis round64_monotone : forall x y : Q,
  (x <= y)%Q -> (round64 x <= round64 y)%Q.
Hypothesis round64_error : forall x : Q,
  (Qabs (round64 x - x) <= eps * Qabs x)%Q.
Hypothesis eps_nonneg : (0 <= eps)%Q.

Lemma round64_near (x bound : Q) :
  (Qabs x <= bound)%Q ->
  (x - eps * bound <= round64 x <= x + eps * bound)%Q.
Proof.
  intros Hx.
  assert (H : (Qabs (round64 x - x) <= eps * bound)%Q).
  { eapply Qle_trans; [apply round64_error|].
    rewrite (Qmult_comm eps (Qabs x)), (Qmult_comm eps bound).
    apply Qmult_le_compat_r; assumption. }
  apply Qabs_Qle_condition in H. destruct H as [H1 H2]. split; lra.
Qed.

Lemma Qabs_plus_minus (x b : Q) :
  (0 <= b)%Q ->
  (Qabs (x - b) <= Qabs x + b)%Q /\ (Qabs (x + b) <= Qabs x + b)%Q.
Proof.
  intros Hb. split.
  - eapply Qle_trans; [apply (Qabs_triangle x (- b))|].
    rewrite Qabs_opp, (Qabs_pos b) by exact Hb. apply Qle_refl.
  - eapply Qle_trans; [apply (Qabs_triangle x b)|].
    rewrite (Qabs_pos b) by exact Hb. apply Qle_refl.
Qed.

(** X13.  The box the script builds in float arithmetic is never
    inverted (west <= east, south <= north) for a buffer of 0 or more,
    and the rectangle drawn on the map has exactly its corners.  It is
    valid, west < east, as soon as the buffer exceeds the rounding error
    of the coordinates, [eps * (|lon| + buffer) < buffer], and then its
    width differs from twice the buffer by at most twice that error; the
    same for south < north. *)
Theorem bbox_of_valid (lat lon buffer : Q) :
  (0 <= buffer)%Q ->
  let bbox := bbox_of round64 lat lon buffer in
  (left bbox <= right bbox)%Q /\
  (bottom bbox <= top bbox)%Q /\
  ((eps * (Qabs lon + buffer) < buffer)%Q ->
   (left bbox < right bbox)%Q /\
   (Qabs (right bbox - left bbox - 2 * buffer)
    <= 2 * (eps * (Qabs lon + buffer)))%Q) /\
  ((eps * (Qabs lat + buffer) < buffer)%Q ->
   (bottom bbox < top bbox)%Q /\
   (Qabs (top bbox - bottom bbox - 2 * buffer)
    <= 2 * (eps * (Qabs lat + buffer)))%Q) /\
  rectangle_of round64 lat lon buffer
    = ((bottom bbox, left bbox), (top bbox, right bbox)).
Proof.
  intros Hb. cbv zeta. unfold bbox_of, rectangle_of.
  cbn [left right bottom top].
  assert (Hside : forall x,
            (round64 (x - buffer) <= round64 (x + buffer))%Q /\
            ((eps * (Qabs x + buffer) < buffer)%Q ->
             (round64 (x - buffer) < round64 (x + buffer))%Q /\
             (Qabs (round64 (x + buffer) - round64 (x - buffer)
                    - 2 * buffer)
              <= 2 * (eps * (Qabs x + buffer)))%Q)).
  { intros x. split; [apply round64_monotone; lra|]. intros Hsmall.
    destruct (Qabs_plus_minus x buffer Hb) as [Hm Hp].
    destruct (round64_near (x - buffer) _ Hm) as [L1 L2].
    destruct (round64_near (x + buffer) _ Hp) as [R1 R2].
    set (B := (eps * (Qabs x + buffer))%Q) in *.
    split; [lra|]. apply Qabs_Qle_condition. split; lra. }
  destruct (Hside lon) as [Hlon Hlon']. destruct (Hside lat) as [Hlat Hlat'].
  repeat split; auto; try (apply Hlon'; assumption);
    try (apply Hlat'; assumption).
Qed.

End Box.

Lemma script_needs_reference_witness :
  script Demo.sign Demo.rasterio_open Demo.index Demo.ds_transform
    Demo.read Demo.promote Demo.round32 demo_item_nir Demo.bbox
    ["B08"%string] false = Err (KeyError "B04").
Proof.
  destruct (script_needs_reference Demo.dataset Demo.sign
              Demo.rasterio_open Demo.index Demo.ds_transform Demo.read
              Demo.promote Demo.round32 demo_item_nir Demo.bbox
              ["B08"%string] false) as (_ & Hmiss & _).
  apply Hmiss. vm_compute. reflexivity.
Defined.

Lemma download_handler_file_witness :
  exists preview t tif,
    Demo.read_band_fine "fine/B04.tif" Demo.bbox ["B08"; "B04"]%string
      = Ok (preview, t) /\
    demo_download preview t = Ok tif /\
    g_count tif = 2%nat /\
    g_transform tif = t /\
    reopen tif = (preview, t).
Proof.
  destruct (download_handler_file Demo.dataset Demo.sign
              Demo.rasterio_open Demo.index Demo.ds_transform Demo.read
              Demo.promote Demo.item_fine
              (Ok "/tmp/tmpk3v9.tif"%string)
              (fun _ => Ok tt) (fun _ _ => Ok tt)
              demo_read_shape demo_read_well_formed
              "fine/B04.tif" Demo.bbox ["B08"; "B04"]%string)
    as (p & t & Hrb & Hfile & Hgo & _); [vm_compute; reflexivity|].
  destruct (is_ok_result _ (Hgo _ eq_refl eq_refl (fun _ => eq_refl)))
    as [tif Htif].
  destruct (Hfile tif Htif) as (_ & _ & Hc & _ & _ & Ht & Hre).
  exists p, t, tif. repeat split; assumption.
Defined.

Lemma bbox_of_valid_witness :
  (left demo_bbox_exact < right demo_bbox_exact)%Q /\
  (bottom demo_bbox_exact < top demo_bbox_exact)%Q /\
  rectangle_of (fun q => q) (488584 # 10000) (22945 # 10000) (2 # 100)
    = ((bottom demo_bbox_exact, left demo_bbox_exact),
       (top demo_bbox_exact, right demo_bbox_exact)).
Proof.
  destruct (bbox_of_valid (fun q => q) (1 # 9007199254740992))
    with (lat := 488584 # 10000) (lon := 22945 # 10000)
         (buffer := 2 # 100)
    as (_ & _ & Hlon & Hlat & Hrect).
  - intros x y H. exact H.
  - intros x. assert (E : (x - x == 0)%Q) by ring.
    rewrite E. apply Qmult_le_0_compat; [discriminate | apply Qabs_nonneg].
  - discriminate.
  - discriminate.
  - split; [apply Hlon; reflexivity|].
    split; [apply Hlat; reflexivity | exact Hrect].
Defined.
